(** * Underwriting pipeline: session state, stage tools, orchestrator and
    status persistence

    A shallow embedding of the orchestration core of the underwriting agent
    ([underwriting_agents.py], [policy_generator.py], [agentcore_main.py]
    and the status reader of [run.py]).

    Python objects with identity (the context registry, the S3 bucket, the
    upload folder) live in an explicit [World]; every function that touches
    them is a state transformer [M A].  Everything the program cannot
    decide by itself (the model's answers, credential checks, S3 faults, the
    planner's choices, HTML templates) is read from an environment [Env],
    indexed by a counter of external events so that it may change over time.
    [UnderwritingContext()] itself (building a boto3 client) is taken to
    succeed. *)

From Stdlib Require Import QArith Ascii String.
From stdpp Require Import base strings gmap list pretty.
Close Scope Q_scope.
Open Scope string_scope.
Set Warnings "-clear-no-such-hyp".

(** ** Python string helpers *)

Definition lower_ascii (c : ascii) : ascii :=
  let n := nat_of_ascii c in
  if ((65 <=? n) && (n <=? 90))%nat then ascii_of_nat (n + 32) else c.

(** [str.lower()] on ASCII text. *)
Fixpoint lower (s : string) : string :=
  match s with
  | EmptyString => EmptyString
  | String c s' => String (lower_ascii c) (lower s')
  end.

(** [sub in s] for Python strings. *)
Fixpoint contains (sub s : string) : bool :=
  String.prefix sub s ||
  match s with
  | EmptyString => false
  | String _ s' => contains sub s'
  end.

(** [any(keyword in s for keyword in keywords)] *)
Definition any_in (keywords : list string) (s : string) : bool :=
  existsb (λ k, contains k s) keywords.

(** ** Session id extraction

    The first pattern of [extract_session_id],
    [session_[0-9]{4}-[0-9]{2}-[0-9]{2}_[0-9]{2}-[0-9]{2}-[0-9]{2}_[a-f0-9]{8}],
    has a fixed length and is matched here character class by character
    class.  The five case-insensitive fallback patterns are left to the
    environment. *)

Inductive CharClass := CLit (c : ascii) | CDigit | CHex.

Definition is_digit (c : ascii) : bool :=
  let n := nat_of_ascii c in ((48 <=? n) && (n <=? 57))%nat.

Definition is_hex (c : ascii) : bool :=
  let n := nat_of_ascii c in is_digit c || ((97 <=? n) && (n <=? 102))%nat.

Definition class_match (k : CharClass) (c : ascii) : bool :=
  match k with
  | CLit d => bool_decide (c = d)
  | CDigit => is_digit c
  | CHex => is_hex c
  end.

Fixpoint match_here (p : list CharClass) (s : string) : option string :=
  match p with
  | [] => Some EmptyString
  | k :: p' =>
      match s with
      | EmptyString => None
      | String c s' =>
          if class_match k c
          then match match_here p' s' with
               | Some m => Some (String c m)
               | None => None
               end
          else None
      end
  end.

(** [re.search]: the leftmost match. *)
Fixpoint re_search (p : list CharClass) (s : string) : option string :=
  match match_here p s with
  | Some m => Some m
  | None =>
      match s with
      | EmptyString => None
      | String _ s' => re_search p s'
      end
  end.

Fixpoint lits (s : string) : list CharClass :=
  match s with
  | EmptyString => []
  | String c s' => CLit c :: lits s'
  end.

Definition session_pattern : list CharClass :=
  lits "session_" ++ replicate 4 CDigit ++ lits "-" ++ replicate 2 CDigit ++
  lits "-" ++ replicate 2 CDigit ++ lits "_" ++ replicate 2 CDigit ++
  lits "-" ++ replicate 2 CDigit ++ lits "-" ++ replicate 2 CDigit ++
  lits "_" ++ replicate 8 CHex.

(** ** Data model *)

(** One entry of [agent_data] / of the ['agents'] object of a status
    document.  [timestamp] is a clock reading; [None] stands for the empty
    string the initial document uses. *)
Record AgentRecord := mkAgentRecord {
  analysis : string;
  timestamp : option nat;
  status : string
}.

Record UnderwritingContext := mkContext {
  agent_data : gmap string AgentRecord;
  session_id : option string;
  processed_agents : gset string;
  processing_start_time : option nat;
  document_content : string
}.

(** Result of [DocumentProcessor.analyze_all_pdfs] on an existing folder. *)
Record DocumentAnalysis := mkAnalysis {
  combined_content : string;
  total_documents : nat
}.

Record ProcessingSummary := mkSummary {
  total_agents : Z;
  completed_agents : Z;
  pending_agents : Z;
  completion_percentage : Q
}.

Record PolicyDescriptor := mkDescriptor {
  pd_status : string;
  pd_timestamp : nat;
  pd_s3_location : string;
  pd_local_file : string;
  pd_policy_number : string
}.

(** The JSON object stored under [<session>/agent_status.json]; a key that
    may be absent is an [option]. *)
Record StatusDoc := mkDoc {
  doc_session_id : string;
  doc_created_at : option nat;
  doc_last_updated : option nat;
  doc_status : option string;
  doc_agents : gmap string AgentRecord;
  doc_final_summary : option string;
  doc_processing_summary : option ProcessingSummary;
  doc_message : option string;
  doc_policy_generated : option PolicyDescriptor
}.

(** What a stored object decodes to: a status document, or bytes on which
    [json.loads] raises. *)
Inductive S3Body := BodyJson (d : StatusDoc) | BodyCorrupt.

(** The value an agent call hands back: [bool(result)] and [str(result)]. *)
Record AgentResult := mkResult { truthy : bool; text : string }.

Inductive Outcome := Returns (r : AgentResult) | Raises (msg : string).

(** What [safe_model_call] returns: the result object or a plain string. *)
Inductive PyVal := PResult (r : AgentResult) | PStr (s : string).

Definition str (v : PyVal) : string :=
  match v with PResult r => text r | PStr s => s end.

(** The pieces a stage interpolates into its prompt. *)
Record Prompt := mkPrompt {
  prompt_stage : string;
  prompt_context : list (string * string);
  prompt_document : string
}.

Inductive Tool :=
| data_intake | document_verification | medical_risk_assessment | financial
| driving | compliance | lifestyle_behavioral | summary_generation.

(** The planner agent, seen from outside: it calls tools of its own choice
    with arguments of its own choice, reads what they return, and in the end
    returns a text or raises. *)
Inductive Plan :=
| PlanReturn (result : string)
| PlanRaise (msg : string)
| PlanCall (t : Tool) (arg : string) (k : string → Plan).

Record PolicyData := mkPolicyData { policy_number : option string }.

Record PolicyResult := mkPolicyResult {
  pr_status : string;
  pr_error : option string;
  pr_s3_location : option string;
  pr_local_file : option string
}.

(** Download and extraction of the uploaded archive. *)
Inductive ArchiveOutcome :=
| DownloadRaises (msg : string)
| FileSize0
| FileTooLarge
| ExtractionFails (msg : string)
| Extracted (folder : DocumentAnalysis).

Record Env := mkEnv {
  fallback_patterns : string → option string;
  credentials_valid : nat → bool;
  agent_available : string → bool;
  model : string → Prompt → nat → Outcome;
  s3_put_ok : nat → bool;
  s3_get_fault : nat → option string;
  orchestrator : option (string → nat → Plan);
  policy_model : string → nat → option PolicyData;
  render_pdf_ok : nat → bool;
  upload_ok : nat → bool;
  archive : string → string → nat → ArchiveOutcome;
  credential_error_html : string → nat → string;
  fallback_mode_summary_html : string → nat → gmap string string → string;
  partial_summary_html : string → nat → gmap string string → string;
  json_dumps : PolicyResult → string
}.

Record World := mkWorld {
  context_registry : gmap string UnderwritingContext;
  upload_folder : gmap string DocumentAnalysis;
  s3_objects : gmap string S3Body;
  tick : nat;
  model_log : list string;
  sleep_log : list nat;
  rendered : list string;
  uploaded : list string
}.

(** ** State monad *)

Definition M (A : Type) : Type := World → A * World.

#[export] Instance M_ret : MRet M := λ A x w, (x, w).
#[export] Instance M_bind : MBind M :=
  λ A B f m w, match m w with (x, w') => f x w' end.

Definition get_world : M World := λ w, (w, w).

Definition set_registry (r : gmap string UnderwritingContext) : M unit :=
  λ w, ((), mkWorld r (upload_folder w) (s3_objects w) (tick w) (model_log w)
              (sleep_log w) (rendered w) (uploaded w)).

Definition set_upload_folder (f : gmap string DocumentAnalysis) : M unit :=
  λ w, ((), mkWorld (context_registry w) f (s3_objects w) (tick w)
              (model_log w) (sleep_log w) (rendered w) (uploaded w)).

Definition set_s3 (o : gmap string S3Body) : M unit :=
  λ w, ((), mkWorld (context_registry w) (upload_folder w) o (tick w)
              (model_log w) (sleep_log w) (rendered w) (uploaded w)).

(** One more external event has happened. *)
Definition step : M nat :=
  λ w, (tick w, mkWorld (context_registry w) (upload_folder w) (s3_objects w)
              (S (tick w)) (model_log w) (sleep_log w) (rendered w)
              (uploaded w)).

Definition log_model_call (agent : string) : M unit :=
  λ w, ((), mkWorld (context_registry w) (upload_folder w) (s3_objects w)
              (tick w) (agent :: model_log w) (sleep_log w) (rendered w)
              (uploaded w)).

(** [time.sleep(seconds)] *)
Definition sleep (seconds : nat) : M unit :=
  λ w, ((), mkWorld (context_registry w) (upload_folder w) (s3_objects w)
              (tick w) (model_log w) (seconds :: sleep_log w) (rendered w)
              (uploaded w)).

Definition log_rendered (file : string) : M unit :=
  λ w, ((), mkWorld (context_registry w) (upload_folder w) (s3_objects w)
              (tick w) (model_log w) (sleep_log w) (file :: rendered w)
              (uploaded w)).

Definition log_uploaded (key : string) : M unit :=
  λ w, ((), mkWorld (context_registry w) (upload_folder w) (s3_objects w)
              (tick w) (model_log w) (sleep_log w) (rendered w)
              (key :: uploaded w)).

(** [datetime.now()] *)
Definition now : M nat := λ w, (tick w, w).

(** ** [UnderwritingContext] *)

(** [UnderwritingContext.__init__] *)
Definition new_context : UnderwritingContext :=
  mkContext ∅ None ∅ None "".

Definition set_session_id (c : UnderwritingContext) (sid : string) (t : nat)
  : UnderwritingContext :=
  mkContext (agent_data c) (Some sid) (processed_agents c) (Some t)
    (document_content c).

Definition get_agent_result (c : UnderwritingContext) (agent_name : string)
  : string :=
  match agent_data c !! agent_name with
  | Some r => analysis r
  | None => ""
  end.

Definition has_processed (c : UnderwritingContext) (agent_name : string)
  : bool :=
  bool_decide (agent_name ∈ processed_agents c).

Definition get_all_insights (c : UnderwritingContext) : gmap string string :=
  analysis <$> agent_data c.

Definition set_document_content (c : UnderwritingContext) (s : string)
  : UnderwritingContext :=
  mkContext (agent_data c) (session_id c) (processed_agents c)
    (processing_start_time c) s.

(** The two assignments at the head of [add_agent_result]. *)
Definition record_result (c : UnderwritingContext) (agent_name result : string)
    (t : nat) : UnderwritingContext :=
  mkContext (<[agent_name := mkAgentRecord result (Some t) "completed"]>
               (agent_data c))
    (session_id c) ({[agent_name]} ∪ processed_agents c)
    (processing_start_time c) (document_content c).

Definition status_key (sid : string) : string := sid +:+ "/agent_status.json".

(** The dictionary [save_agent_status] serialises, for a context whose
    session id is [sid], at time [t]. *)
Definition status_data (c : UnderwritingContext) (sid : string) (t : nat)
  : StatusDoc :=
  let n := Z.of_nat (size (processed_agents c)) in
  mkDoc sid
    (Some (default t (processing_start_time c)))
    (Some t)
    (Some (if bool_decide ("summary_generation" ∈ processed_agents c)
           then "completed" else "in_progress"))
    (agent_data c)
    (Some (get_agent_result c "summary_generation"))
    (Some (mkSummary 8 n (8 - n) ((inject_Z n / 8) * 100)%Q))
    None None.

Section Pipeline.
Context (E : Env).

Definition extract_session_id (input_data : string) : option string :=
  if bool_decide (input_data = "") then None
  else match re_search session_pattern input_data with
       | Some m => Some m
       | None => fallback_patterns E input_data
       end.

Definition validate_aws_credentials : M bool :=
  t ← step; mret (credentials_valid E t).

(** ** The bucket *)

Inductive S3GetResult :=
| GetOk (b : S3Body) | GetNoSuchKey | GetFailed (msg : string).

Definition get_object (key : string) : M S3GetResult :=
  t ← step;
  w ← get_world;
  match s3_get_fault E t with
  | Some msg => mret (GetFailed msg)
  | None =>
      match s3_objects w !! key with
      | Some b => mret (GetOk b)
      | None => mret GetNoSuchKey
      end
  end.

(** [put_object] inside a [try]: [true] when the write went through. *)
Definition put_object (key : string) (d : StatusDoc) : M bool :=
  t ← step;
  w ← get_world;
  if s3_put_ok E t
  then _ ← set_s3 (<[key := BodyJson d]> (s3_objects w)); mret true
  else mret false.

Definition save_agent_status (c : UnderwritingContext) : M unit :=
  match session_id c with
  | None => mret ()
  | Some sid =>
      if bool_decide (sid = "") then mret ()
      else t ← now;
           _ ← put_object (status_key sid) (status_data c sid t);
           mret ()
  end.

(** ** The registry *)

Definition get_or_create_context (sid : string) : M UnderwritingContext :=
  w ← get_world;
  match context_registry w !! sid with
  | Some c => mret c
  | None =>
      t ← now;
      let c := set_session_id new_context sid t in
      _ ← set_registry (<[sid := c]> (context_registry w));
      mret c
  end.

Definition reset_context_for_session (sid : string) : M UnderwritingContext :=
  w ← get_world;
  t ← now;
  let c := set_session_id new_context sid t in
  _ ← set_registry (<[sid := c]> (context_registry w));
  mret c.

(** A method call on the context object registered under [sid]: the object
    is updated in place. *)
Definition update_context (sid : string)
    (f : UnderwritingContext → UnderwritingContext) : M UnderwritingContext :=
  w ← get_world;
  let c := f (default new_context (context_registry w !! sid)) in
  _ ← set_registry (<[sid := c]> (context_registry w));
  mret c.

Definition add_agent_result (sid agent_name result : string) : M unit :=
  t ← now;
  c ← update_context sid (λ c, record_result c agent_name result t);
  save_agent_status c.

(** ** Documents *)

Definition analyze_all_pdfs (sid : string) : M (string + DocumentAnalysis) :=
  w ← get_world;
  match upload_folder w !! sid with
  | None => mret (inl "Session folder not found")
  | Some a => mret (inr a)
  end.

(** ** [safe_model_call] *)

Definition credential_keywords : list string :=
  ["credentials"; "unauthorized"; "token"; "expired"].

(** [agent(prompt)] *)
Definition call_agent (agent : string) (prompt : Prompt) : M Outcome :=
  t ← step;
  _ ← log_model_call agent;
  mret (model E agent prompt t).

(** The [for attempt in range(max_retries)] loop, entered at [attempt] with
    [remaining = max_retries - attempt] iterations to go. *)
Fixpoint safe_model_loop (agent : string) (prompt : Prompt)
    (max_retries attempt remaining : nat) : M PyVal :=
  match remaining with
  | O =>
      mret (PStr "All retry attempts exhausted - please check your AWS configuration")
  | S remaining' =>
      o ← call_agent agent prompt;
      match o with
      | Returns result =>
          if truthy result && (10 <? String.length (text result))%nat
          then mret (PResult result)
          else if (attempt <? max_retries - 1)%nat
          then _ ← sleep 1;
               safe_model_loop agent prompt max_retries (attempt + 1) remaining'
          else mret (PStr (if truthy result then text result
                           else "No response received from model"))
      | Raises error_msg =>
          if any_in credential_keywords (lower error_msg)
          then mret (PStr ("Authentication Error: Your AWS session may have expired. Please refresh your credentials. Details: " +:+ error_msg))
          else if contains "throttling" (lower error_msg)
                  || contains "rate" (lower error_msg)
          then _ ← sleep (5 * (attempt + 1));
               safe_model_loop agent prompt max_retries (attempt + 1) remaining'
          else if contains "not found" (lower error_msg)
                  || contains "does not exist" (lower error_msg)
          then mret (PStr ("Model Error: Nova Pro model may not be available in your region. Details: " +:+ error_msg))
          else if (attempt <? max_retries - 1)%nat
          then _ ← sleep 2;
               safe_model_loop agent prompt max_retries (attempt + 1) remaining'
          else mret (PStr ("Model call failed after " +:+ pretty max_retries
                           +:+ " attempts. Final error: " +:+ error_msg))
      end
  end.

Definition safe_model_call_with (agent : string) (prompt : Prompt)
    (max_retries : nat) : M PyVal :=
  is_valid ← validate_aws_credentials;
  if negb is_valid
  then mret (PStr "Error: AWS credentials not available or expired. Please refresh your credentials.")
  else safe_model_loop agent prompt max_retries 0 max_retries.

(** [max_retries=3] is the default and no caller overrides it. *)
Definition safe_model_call (agent : string) (prompt : Prompt) : M PyVal :=
  safe_model_call_with agent prompt 3.

(** ** Stage tools *)

Definition previous_results (c : UnderwritingContext) (names : list string)
  : list (string * string) :=
  (λ n, (n, get_agent_result c n)) <$> names.

(** The body the six specialist tools between intake and summary share;
    they differ in their stage name, their literals and the earlier results
    they quote. *)
Definition specialist_tool (name already_completed not_available : string)
    (quoted : list string) (session_data : string) : M string :=
  match extract_session_id session_data with
  | None => mret "Session ID not found"
  | Some sid =>
      context ← get_or_create_context sid;
      if has_processed context name then mret already_completed
      else
        loaded ←
          (if bool_decide (document_content context = "")
           then document_analysis ← analyze_all_pdfs sid;
                match document_analysis with
                | inl err => mret (inl err)
                | inr a =>
                    c ← update_context sid
                          (λ c, set_document_content c (combined_content a));
                    mret (inr c)
                end
           else mret (inr context));
        match loaded with
        | inl err => mret ("Document analysis failed: " +:+ err)
        | inr context =>
            stage_analysis ←
              (if agent_available E name
               then v ← safe_model_call name
                          (mkPrompt name (previous_results context quoted)
                             (document_content context));
                    mret (str v)
               else mret not_available);
            _ ← add_agent_result sid name stage_analysis;
            mret stage_analysis
        end
  end.

Definition data_intake_tool (session_data : string) : M string :=
  match extract_session_id session_data with
  | None => mret "Session ID not found"
  | Some sid =>
      context ← get_or_create_context sid;
      if has_processed context "data_intake"
      then mret "Data intake already completed"
      else
        document_analysis ← analyze_all_pdfs sid;
        match document_analysis with
        | inl err => mret ("Document analysis failed: " +:+ err)
        | inr a =>
            _ ← update_context sid
                  (λ c, set_document_content c (combined_content a));
            intake_analysis ←
              (if agent_available E "data_intake"
               then v ← safe_model_call "data_intake"
                          (mkPrompt "data_intake"
                             [("total_documents", pretty (total_documents a));
                              ("total_content_length",
                               pretty (String.length (combined_content a)))]
                             (combined_content a));
                    mret (str v)
               else mret "Error: Data intake agent not available due to AWS credential issues. Please check your AWS configuration.");
            _ ← add_agent_result sid "data_intake" intake_analysis;
            mret intake_analysis
        end
  end.

Definition document_verification_tool : string → M string :=
  specialist_tool "document_verification"
    "Document verification already completed"
    "Error: Document verification agent not available due to AWS credential issues. Please check your AWS configuration."
    ["data_intake"].

Definition medical_risk_assessment_tool : string → M string :=
  specialist_tool "medical_risk_assessment"
    "Medical risk assessment already completed"
    "Error: Medical risk assessment agent not available due to AWS credential issues. Please check your AWS configuration."
    ["data_intake"; "document_verification"].

Definition financial_analysis_tool : string → M string :=
  specialist_tool "financial"
    "Financial analysis already completed"
    "Error: Financial analysis agent not available due to AWS credential issues. Please check your AWS configuration."
    ["data_intake"; "document_verification"; "medical_risk_assessment"].

Definition driving_analysis_tool : string → M string :=
  specialist_tool "driving"
    "Driving analysis already completed"
    "Error: Driving analysis agent not available due to AWS credential issues. Please check your AWS configuration."
    ["data_intake"; "document_verification"; "medical_risk_assessment";
     "financial"].

Definition compliance_analysis_tool : string → M string :=
  specialist_tool "compliance"
    "Compliance analysis already completed"
    "Error: Compliance analysis agent not available due to AWS credential issues. Please check your AWS configuration."
    ["data_intake"; "document_verification"; "medical_risk_assessment";
     "financial"; "driving"].

Definition lifestyle_behavioral_analysis_tool : string → M string :=
  specialist_tool "lifestyle_behavioral"
    "Lifestyle behavioral analysis already completed"
    "Error: Lifestyle behavioral analysis agent not available due to AWS credential issues. Please check your AWS configuration."
    ["data_intake"; "document_verification"; "medical_risk_assessment";
     "financial"; "driving"; "compliance"].

(** ** Policy generation ([policy_generator.py]) *)

Definition policy_outcome (st : string) (err : option string) : PolicyResult :=
  mkPolicyResult st err None None.

Definition decline_indicated (final_summary : string) : bool :=
  let summary_lower := lower final_summary in
  contains "decline" summary_lower || contains "denied" summary_lower
  || contains "failed" summary_lower.

Definition generate_health_insurance_policy (sid : string) : M PolicyResult :=
  let s3_key := status_key sid in
  got ← get_object s3_key;
  match got with
  | GetNoSuchKey =>
      mret (policy_outcome "error" (Some "Could not read agent_status.json: NoSuchKey"))
  | GetFailed msg =>
      mret (policy_outcome "error" (Some ("Could not read agent_status.json: " +:+ msg)))
  | GetOk BodyCorrupt =>
      mret (policy_outcome "error" (Some "Could not read agent_status.json: JSONDecodeError"))
  | GetOk (BodyJson agent_status) =>
      let overall_status := default "" (doc_status agent_status) in
      if negb (bool_decide (overall_status = "completed"))
      then mret (policy_outcome "skipped" None)
      else
        let final_summary := default "" (doc_final_summary agent_status) in
        if (String.length final_summary <? 100)%nat
        then mret (policy_outcome "error" (Some "No final summary available"))
        else if decline_indicated final_summary
        then mret (policy_outcome "declined" None)
        else
          t ← step;
          match policy_model E final_summary t with
          | None =>
              mret (policy_outcome "error" (Some "Failed to extract policy data"))
          | Some policy_data =>
              ts ← now;
              let local_filename :=
                "policy_generated_" +:+ sid +:+ "_" +:+ pretty ts +:+ ".pdf" in
              _ ← log_rendered local_filename;
              t ← step;
              if negb (render_pdf_ok E t)
              then mret (policy_outcome "error" (Some "Failed to generate Word document"))
              else
                let s3_policy_key :=
                  sid +:+ "/policy_generated_" +:+ pretty ts +:+ ".pdf" in
                let s3_location := "s3://trianz-aws-hackathon/" +:+ s3_policy_key in
                t ← step;
                _ ← (if upload_ok E t then log_uploaded s3_policy_key
                     else mret ());
                ts' ← now;
                _ ← put_object s3_key
                      (mkDoc (doc_session_id agent_status)
                         (doc_created_at agent_status)
                         (doc_last_updated agent_status)
                         (doc_status agent_status) (doc_agents agent_status)
                         (doc_final_summary agent_status)
                         (doc_processing_summary agent_status)
                         (doc_message agent_status)
                         (Some (mkDescriptor "completed" ts' s3_location
                                  local_filename
                                  (default "N/A" (policy_number policy_data)))));
                mret (mkPolicyResult "success" None (Some s3_location)
                        (Some local_filename))
          end
  end.

Definition policy_generation_tool (session_data : string) : M string :=
  match extract_session_id session_data with
  | None => mret "Session ID not found"
  | Some sid =>
      context ← get_or_create_context sid;
      if negb (has_processed context "summary_generation")
      then mret "Summary generation must be completed before policy generation"
      else
        policy_result ← generate_health_insurance_policy sid;
        if bool_decide (pr_status policy_result = "success")
        then _ ← add_agent_result sid "policy_generation"
                   (json_dumps E policy_result);
             mret ("Policy generated successfully: "
                   +:+ default "N/A" (pr_local_file policy_result))
        else if bool_decide (pr_status policy_result = "declined")
        then _ ← add_agent_result sid "policy_generation"
                   "Underwriting declined - policy not generated";
             mret "Policy generation skipped: Underwriting declined"
        else if bool_decide (pr_status policy_result = "skipped")
        then mret "Policy generation skipped: Underwriting not completed"
        else mret ("Policy generation failed: "
                   +:+ default "Unknown error" (pr_error policy_result))
  end.

Definition specialist_names : list string :=
  ["data_intake"; "document_verification"; "medical_risk_assessment";
   "financial"; "driving"; "compliance"; "lifestyle_behavioral"].

Definition summary_generation_tool (session_data : string) : M string :=
  match extract_session_id session_data with
  | None => mret "Session ID not found"
  | Some sid =>
      context ← get_or_create_context sid;
      if has_processed context "summary_generation"
      then mret "Summary generation already completed"
      else
        let all_insights := get_all_insights context in
        if (size all_insights <? 7)%nat
        then mret "Insufficient specialist analyses available for summary generation"
        else
          comprehensive_summary ←
            (if agent_available E "summary_generation"
             then t ← now;
                  v ← safe_model_call "summary_generation"
                        (mkPrompt "summary_generation"
                           (("session_id", sid) :: ("date", pretty t)
                            :: ("completed", pretty (size all_insights))
                            :: ((λ n, (n, default "Not available"
                                            (all_insights !! n)))
                                  <$> specialist_names))
                           "");
                  mret (str v)
             else t ← now;
                  mret (fallback_mode_summary_html E sid t all_insights));
          _ ← add_agent_result sid "summary_generation" comprehensive_summary;
          _ ← policy_generation_tool ("Session ID: " +:+ sid);
          mret comprehensive_summary
  end.

(** ** [UnderwritingOrchestrator] *)

Definition stage_name (t : Tool) : string :=
  match t with
  | data_intake => "data_intake"
  | document_verification => "document_verification"
  | medical_risk_assessment => "medical_risk_assessment"
  | financial => "financial"
  | driving => "driving"
  | compliance => "compliance"
  | lifestyle_behavioral => "lifestyle_behavioral"
  | summary_generation => "summary_generation"
  end.

Definition tool_function (t : Tool) : string → M string :=
  match t with
  | data_intake => data_intake_tool
  | document_verification => document_verification_tool
  | medical_risk_assessment => medical_risk_assessment_tool
  | financial => financial_analysis_tool
  | driving => driving_analysis_tool
  | compliance => compliance_analysis_tool
  | lifestyle_behavioral => lifestyle_behavioral_analysis_tool
  | summary_generation => summary_generation_tool
  end.

(** The list [agents] of [manual_process_underwriting]. *)
Definition agents : list Tool :=
  [data_intake; document_verification; medical_risk_assessment; financial;
   driving; compliance; lifestyle_behavioral; summary_generation].

(** The [for agent_name, agent_tool in agents] loop; [Some result] when it
    left through [return result]. *)
Fixpoint run_agents (l : list Tool) (underwriting_input : string)
  : M (option string) :=
  match l with
  | [] => mret None
  | t :: rest =>
      result ← tool_function t underwriting_input;
      if bool_decide (stage_name t = "summary_generation")
      then mret (Some result)
      else run_agents rest underwriting_input
  end.

Definition manual_process_underwriting (underwriting_input sid : string)
  : M string :=
  r ← run_agents agents underwriting_input;
  match r with
  | Some result => mret result
  | None =>
      context ← get_or_create_context sid;
      t ← now;
      mret (partial_summary_html E sid t (get_all_insights context))
  end.

(** Running the planner: [inl msg] when it raised. *)
Fixpoint run_plan (p : Plan) : M (string + string) :=
  match p with
  | PlanReturn result => mret (inr result)
  | PlanRaise msg => mret (inl msg)
  | PlanCall t arg k =>
      r ← tool_function t arg;
      run_plan (k r)
  end.

(** The text the stages are given: the caller's, with the session id put in
    front of it when it does not occur in it. *)
Definition with_session_id (underwriting_input sid : string) : string :=
  if negb (contains sid underwriting_input)
  then "Session ID: " +:+ sid +:+ "
" +:+ underwriting_input
  else underwriting_input.

Definition process_underwriting (underwriting_input sid : string) : M string :=
  is_valid ← validate_aws_credentials;
  if negb is_valid
  then t ← now; mret (credential_error_html E sid t)
  else
    _ ← reset_context_for_session sid;
    let underwriting_input := with_session_id underwriting_input sid in
    match orchestrator E with
    | None => manual_process_underwriting underwriting_input sid
    | Some planner =>
        t ← step;
        r ← run_plan (planner underwriting_input t);
        match r with
        | inr result => mret result
        | inl _ => manual_process_underwriting underwriting_input sid
        end
    end.

(** ** The service front ([agentcore_main.py]) *)

Record Response := mkResponse {
  resp_status : string;
  resp_error : option string;
  resp_final_summary : option string;
  resp_agent_status : option StatusDoc
}.

Definition pending : AgentRecord := mkAgentRecord "" None "pending".

Definition pending_agents_table : gmap string AgentRecord :=
  list_to_map ((λ t, (stage_name t, pending)) <$> agents).

Definition initialize_processing_status (sid : string) : M unit :=
  t ← now;
  _ ← put_object (status_key sid)
        (mkDoc sid (Some t) (Some t) (Some "starting") pending_agents_table
           None (Some (mkSummary 8 0 8 0)) None None);
  mret ().

Definition update_processing_status (sid new_status message final_summary : string)
  : M unit :=
  got ← get_object (status_key sid);
  t ← now;
  let status_data :=
    match got with
    | GetOk (BodyJson d) => d
    | _ => mkDoc sid (Some t) None None ∅ None None None None
    end in
  t' ← now;
  _ ← put_object (status_key sid)
        (mkDoc (doc_session_id status_data) (doc_created_at status_data)
           (Some t') (Some new_status) (doc_agents status_data)
           (if bool_decide (final_summary = "")
            then doc_final_summary status_data else Some final_summary)
           (doc_processing_summary status_data) (Some message)
           (doc_policy_generated status_data));
  mret ().

Definition error_response (msg : string) : Response :=
  mkResponse "error" (Some msg) None None.

Definition _process_s3_file (s3_bucket s3_key sid : string) : M Response :=
  t ← step;
  w ← get_world;
  match archive E s3_bucket s3_key t with
  | DownloadRaises msg =>
      _ ← update_processing_status sid "failed" ("Processing failed: " +:+ msg) "";
      mret (error_response ("Processing failed: " +:+ msg))
  | FileSize0 =>
      _ ← update_processing_status sid "failed"
            "Processing failed: Downloaded file is empty" "";
      mret (error_response "Processing failed: Downloaded file is empty")
  | FileTooLarge =>
      _ ← update_processing_status sid "failed"
            "Processing failed: File exceeds 50MB limit" "";
      mret (error_response "Processing failed: File exceeds 50MB limit")
  | ExtractionFails msg =>
      _ ← set_upload_folder
            (<[sid := default (mkAnalysis "" 0) (upload_folder w !! sid)]>
               (upload_folder w));
      mret (error_response
              ("Document extraction failed: Zip extraction failed: " +:+ msg))
  | Extracted folder =>
      _ ← set_upload_folder (<[sid := folder]> (upload_folder w));
      let doc_count := total_documents folder in
      if bool_decide (doc_count = 0)
      then mret (error_response "No PDF documents found in ZIP file")
      else
        _ ← update_processing_status sid "processing"
              ("Extracted " +:+ pretty doc_count
               +:+ " documents, starting agent analysis") "";
        t ← now;
        result ← process_underwriting
                   ("Session ID: " +:+ sid +:+ " S3 Source: s3://" +:+ s3_bucket
                    +:+ "/" +:+ s3_key +:+ " Document Count: "
                    +:+ pretty doc_count +:+ " Processing Timestamp: "
                    +:+ pretty t) sid;
        _ ← update_processing_status sid "completed"
              "All agents completed successfully" result;
        mret (mkResponse "success" None (Some result) None)
  end.

(** [handle_s3_document_processing] for a payload that names its bucket, key
    and session. *)
Definition handle_s3_document_processing (s3_bucket s3_key sid : string)
  : M Response :=
  _ ← initialize_processing_status sid;
  _process_s3_file s3_bucket s3_key sid.

Definition handle_get_agent_status_from_s3 (sid : string) : M Response :=
  if bool_decide (sid = "")
  then mret (error_response "Session ID required")
  else
    got ← get_object (status_key sid);
    match got with
    | GetOk (BodyJson agent_status) =>
        mret (mkResponse "success" None None (Some agent_status))
    | GetOk BodyCorrupt =>
        mret (error_response "Agent status not found in S3: JSONDecodeError")
    | GetNoSuchKey =>
        mret (error_response "Agent status not found in S3: NoSuchKey")
    | GetFailed msg =>
        mret (error_response ("Agent status not found in S3: " +:+ msg))
    end.

(** The ['s3_status'] member of what [handle_status_request] answers: the
    stored document, or [{'status': 'not_found'}]. *)
Inductive S3Status := StoredStatus (d : StatusDoc) | NotFound.

Definition handle_status_request (sid : string) : M (Response * option S3Status) :=
  if bool_decide (sid = "")
  then mret (error_response "Session ID required", None)
  else
    got ← get_object (status_key sid);
    mret (mkResponse "success" None None None,
          Some match got with
               | GetOk (BodyJson d) => StoredStatus d
               | _ => NotFound
               end).

(** ** The status reader of the web front ([run.py]) *)

Definition default_initializing_state (sid : string) : StatusDoc :=
  mkDoc sid None None (Some "initializing") pending_agents_table
    None None None None.

(** [inl] is the exception the function lets through. *)
Definition read_agent_status_from_s3 (sid : string) : M (string + StatusDoc) :=
  got ← get_object (status_key sid);
  match got with
  | GetOk (BodyJson status_data) => mret (inr status_data)
  | GetOk BodyCorrupt => mret (inl "JSONDecodeError")
  | GetNoSuchKey => mret (inr (default_initializing_state sid))
  | GetFailed msg => mret (inl msg)
  end.

End Pipeline.

(** ** Vocabulary of the statements *)

(** The context registered for a session; a session never mentioned has the
    fields of a new context. *)
Definition ctxof (w : World) (sid : string) : UnderwritingContext :=
  default new_context (context_registry w !! sid).

Definition specialists : gset string := list_to_set specialist_names.

Definition all_names : gset string :=
  specialists ∪ {["summary_generation"; "policy_generation"]}.

(** What every context the tools build satisfies: results and processed
    marks go together, only the nine known names occur, the summary comes
    after the seven specialists and the policy after the summary, and every
    recorded result is [completed]. *)
Definition ctx_inv (c : UnderwritingContext) : Prop :=
  dom (agent_data c) = processed_agents c
  ∧ processed_agents c ⊆ all_names
  ∧ ("summary_generation" ∈ processed_agents c → specialists ⊆ processed_agents c)
  ∧ ("policy_generation" ∈ processed_agents c
     → "summary_generation" ∈ processed_agents c)
  ∧ map_Forall (λ _ r, status r = "completed") (agent_data c).

(** Nothing recorded and no document text loaded. *)
Definition blank (c : UnderwritingContext) : Prop :=
  agent_data c = ∅ ∧ processed_agents c = ∅ ∧ document_content c = "".

(** The overall status [save_agent_status] reports for a context. *)
Definition overall_status (c : UnderwritingContext) : option string :=
  doc_status (status_data c (default "" (session_id c)) 0).

(** The world right after one [agent(prompt)] call. *)
Definition after_call (agent : string) (w : World) : World :=
  mkWorld (context_registry w) (upload_folder w) (s3_objects w) (S (tick w))
    (agent :: model_log w) (sleep_log w) (rendered w) (uploaded w).

Definition after_sleep (seconds : nat) (w : World) : World :=
  mkWorld (context_registry w) (upload_folder w) (s3_objects w) (tick w)
    (model_log w) (seconds :: sleep_log w) (rendered w) (uploaded w).

(** The tests [safe_model_call] applies to a result and to an error text. *)
Definition short_result (r : AgentResult) : bool :=
  negb (truthy r && (10 <? String.length (text r))%nat).

Definition credential_error (msg : string) : bool :=
  any_in credential_keywords (lower msg).


Definition authentication_error_text (msg : string) : string :=
  "Authentication Error: Your AWS session may have expired. Please refresh your credentials. Details: " +:+ msg.



(** The message a stage tool answers with when its stage is processed. *)
Definition already_completed (t : Tool) : string :=
  match t with
  | data_intake => "Data intake already completed"
  | document_verification => "Document verification already completed"
  | medical_risk_assessment => "Medical risk assessment already completed"
  | financial => "Financial analysis already completed"
  | driving => "Driving analysis already completed"
  | compliance => "Compliance analysis already completed"
  | lifestyle_behavioral => "Lifestyle behavioral analysis already completed"
  | summary_generation => "Summary generation already completed"
  end.

(** A stage tool called on [sid] in [w] gets as far as its model call: the
    stage is not processed yet, its agent exists, and its input is there
    (the session folder; for the later specialists document text already
    loaded will do; for the summary, seven recorded analyses). *)
Definition stage_ready (E : Env) (t : Tool) (sid : string) (w : World) : bool :=
  let c := ctxof w sid in
  negb (has_processed c (stage_name t))
  && agent_available E (stage_name t)
  && match t with
     | summary_generation => (7 <=? size (agent_data c))%nat
     | data_intake => bool_decide (is_Some (upload_folder w !! sid))
     | _ => negb (bool_decide (document_content c = ""))
            || bool_decide (is_Some (upload_folder w !! sid))
     end.

(** ** A concrete session *)

Definition demo_sid : string := "session_2025-01-15_10-30-00_deadbeef".

Definition demo_result (s : string) : Outcome := Returns (mkResult true s).

(** An environment whose credentials answer [creds], whose model answers
    [answers], and where everything else works. *)
Definition demo_env (creds : nat → bool)
    (answers : string → Prompt → nat → Outcome)
    (planner : option (string → nat → Plan)) : Env :=
  mkEnv (λ _, None) creds (λ _, true) answers (λ _, true) (λ _, None) planner
    (λ _ _, Some (mkPolicyData (Some "POL-USA-20250115-0001")))
    (λ _, true) (λ _, true)
    (λ _ _ _, Extracted (mkAnalysis "=== DOCUMENT: application.pdf ===" 1))
    (λ sid _, "Credential Error " +:+ sid)
    (λ sid _ _, "Summary Generated (Fallback Mode) " +:+ sid)
    (λ sid _ _, "Partial Processing Completed " +:+ sid)
    (λ r, pr_status r +:+ " " +:+ default "" (pr_local_file r)).

(** Every stage answers with a favourable analysis of more than a hundred
    characters. *)
Definition ok_answers : string → Prompt → nat → Outcome :=
  λ agent _ _, demo_result ("Analysis of " +:+ agent +:+ ": all submitted documents were reviewed and the applicant is approved as a standard risk with no exclusions.").

(** As [ok_answers], but the capability of [stage] raises [msg] at every
    attempt. *)
Definition failing_answers (stage msg : string)
  : string → Prompt → nat → Outcome :=
  λ agent p t, if bool_decide (agent = stage) then Raises msg
               else ok_answers agent p t.

Definition empty_world : World := mkWorld ∅ ∅ ∅ 0 [] [] [] [].

(** A world where the demo session's folder holds one document. *)
Definition demo_world : World :=
  mkWorld ∅ {[demo_sid := mkAnalysis "=== DOCUMENT: application.pdf ===" 1]}
    ∅ 0 [] [] [] [].

(** ** Vocabulary of the proofs *)

(** What the registry and the upload folder are. *)
Definition core (w : World) := (context_registry w, upload_folder w).

(** [m] leaves the registry and the upload folder alone. *)
Definition core_pres {A} (m : M A) : Prop := ∀ w, core (m w).2 = core w.

(** What any tool call may do to the context of session [s]: the folders
    stay, the invariant is kept, processed marks are only added, and a
    blank context without a folder stays blank. *)
Definition frame (s : string) (w w' : World) : Prop :=
  upload_folder w' = upload_folder w
  ∧ (ctx_inv (ctxof w s) → ctx_inv (ctxof w' s))
  ∧ processed_agents (ctxof w s) ⊆ processed_agents (ctxof w' s)
  ∧ (upload_folder w !! s = None → blank (ctxof w s) → blank (ctxof w' s)).

(** The tools [manual_process_underwriting] runs before the summary. *)
Definition specialist_tools : list Tool :=
  [data_intake; document_verification; medical_risk_assessment; financial;
   driving; compliance; lifestyle_behavioral].


#[global] Instance ctx_inv_dec c : Decision (ctx_inv c).
Proof. unfold ctx_inv. apply _. Defined.

(** ** Concrete environments and worlds *)

Definition demo_input : string := "Session ID: " +:+ demo_sid.

Definition demo_prompt : Prompt := mkPrompt "financial" [] "".

(** Everything works. *)
Definition E_ok : Env := demo_env (λ _, true) ok_answers None.

(** The financial stage's capability raises a plain error at every attempt. *)
Definition E_failing : Env :=
  demo_env (λ _, true) (failing_answers "financial" "boom") None.


Definition expired_message : string :=
  "ExpiredTokenException: the security token included in the request is expired".

Definition E_expired : Env :=
  demo_env (λ _, true) (λ _ _ _, Raises expired_message) None.




(** A planner that runs the intake tool, then the summary tool, and then
    raises. *)
Definition crashing_planner : string → nat → Plan :=
  λ input _, PlanCall data_intake input
               (λ _, PlanCall summary_generation input
                       (λ _, PlanRaise "planner connection lost")).

Definition E_planned : Env :=
  demo_env (λ _, true) ok_answers (Some crashing_planner).

(** The demo session after its intake stage. *)
Definition after_intake : World :=
  (data_intake_tool E_ok demo_input demo_world).2.

(** The state in which [crashing_planner] leaves the demo session. *)
Definition crashed_world : World :=
  (run_plan E_planned
     (crashing_planner (with_session_id "Process the application" demo_sid) 2)
     (step (reset_context_for_session demo_sid (step demo_world).2).2).2).2.




(** The demo session after a run in which everything worked. *)
Definition completed_world : World :=
  (process_underwriting E_ok "Process the application" demo_sid demo_world).2.

(** A bucket whose status object for the demo session does not decode. *)
Definition corrupt_world : World :=
  mkWorld ∅ ∅ {[status_key demo_sid := BodyCorrupt]} 0 [] [] [] [].

(** ** Further functions of the pipeline and its fronts *)

(** What [get_session_status] answers for a registered session. *)
Record SessionStatus := mkSessionStatus {
  ss_processed_agents : gset string;
  ss_total_agents : Z;
  ss_completion_percentage : Q;
  ss_processing_start_time : option nat;
  ss_status : string;
  ss_document_content_length : nat
}.

(** [get_session_status]; [inl] is the ['error'] answer. *)
Definition get_session_status (sid : string) : M (string + SessionStatus) :=
  w ← get_world;
  match context_registry w !! sid with
  | Some context =>
      let n := size (processed_agents context) in
      mret (inr (mkSessionStatus (processed_agents context) 8
                   ((inject_Z (Z.of_nat n) / 8) * 100)%Q
                   (processing_start_time context)
                   (if bool_decide (n = 8) then "completed" else "in_progress")
                   (String.length (document_content context))))
  | None => mret (inl ("Session " +:+ sid +:+ " not found"))
  end.

(** [s3_key.split('/')]: the first part, and whether there are more. *)
Fixpoint first_part (s : string) : string * bool :=
  match s with
  | EmptyString => (EmptyString, false)
  | String c s' =>
      if bool_decide (c = "/"%char) then (EmptyString, true)
      else let '(p, more) := first_part s' in (String c p, more)
  end.

(** [UnderwritingAgent.extract_session_from_s3_key] *)
Definition extract_session_from_s3_key (s3_key : string) : option string :=
  match re_search session_pattern s3_key with
  | Some m => Some m
  | None =>
      let '(head, more) := first_part s3_key in
      if more && String.prefix "session_" head then Some head else None
  end.

(** The Flask route [get_status] of the web front: the overall status it
    derives from a status document. *)
Definition all_status (d : StatusDoc) (st : string) : bool :=
  forallb (λ r, bool_decide (status r = st)) (map_to_list (doc_agents d)).*2.

Definition any_status (d : StatusDoc) (st : string) : bool :=
  existsb (λ r, bool_decide (status r = st)) (map_to_list (doc_agents d)).*2.

Definition derived_status (d : StatusDoc) : string :=
  let overall_status := default "initializing" (doc_status d) in
  if bool_decide (doc_agents d = ∅) then overall_status
  else if all_status d "completed" then "completed"
  else if any_status d "failed" then "failed"
  else if any_status d "in_progress" then "in_progress"
  else overall_status.

(** The members of a ['success'] answer of [handle_summary_request]. *)
Record SummaryResponse := mkSummaryResponse {
  summary_data : StatusDoc;
  underwriting_result : string;
  agent_results : gmap string AgentRecord
}.

Section Fronts.
Context (E : Env).

(** [get_status]: the ['status'] and ['agents'] members of the answer; an
    exception of the reader gives the ['error'] answer with no agents. *)
Definition get_status (sid : string) : M (string * gmap string AgentRecord) :=
  r ← read_agent_status_from_s3 E sid;
  match r with
  | inr status_data => mret (derived_status status_data, doc_agents status_data)
  | inl _ => mret ("error", ∅)
  end.

(** The Flask route [policy_status]: [Some b] is the ['policy_generated']
    member of a ['success'] answer, [None] the ['error'] answer. *)
Definition policy_status (sid : string) : M (option bool) :=
  got ← get_object E (status_key sid);
  match got with
  | GetOk (BodyJson agent_status) =>
      mret (Some (bool_decide (pd_status <$> doc_policy_generated agent_status
                               = Some "completed")))
  | _ => mret None
  end.

(** [UnderwritingAgent.handle_summary_request]: [inl] is the ['error']
    member of an error answer. *)
Definition handle_summary_request (sid : string) : M (string + SummaryResponse) :=
  if bool_decide (sid = "")
  then mret (inl "Session ID required")
  else
    got ← get_object E (status_key sid);
    match got with
    | GetOk (BodyJson status_data) =>
        mret (inr (mkSummaryResponse status_data
                     (default "No results available"
                        (doc_final_summary status_data))
                     (doc_agents status_data)))
    | GetOk BodyCorrupt => mret (inl "Summary not found in S3: JSONDecodeError")
    | GetNoSuchKey => mret (inl "Summary not found in S3: NoSuchKey")
    | GetFailed msg => mret (inl ("Summary not found in S3: " +:+ msg))
    end.

End Fronts.

(** ** Text extraction ([DocumentProcessor.analyze_pdf] and the loop of
    [analyze_all_pdfs]) *)

(** What [page.extract_text()] does on one page. *)
Inductive PageExtract :=
| PageText (page_text : string)
| PageEncodingError
| PageError.

Record PdfAnalysis := mkPdfAnalysis {
  total_pages : nat;
  full_text : string;
  text_length : nat;
  is_valid : bool
}.

(** The [for i, page in enumerate(pdf_reader.pages)] loop, entered at page
    index [i]. *)
Fixpoint page_texts (i : nat) (pages : list PageExtract) : string :=
  match pages with
  | [] => ""
  | page :: rest =>
      match page with
      | PageText page_text =>
          if bool_decide (page_text = "") then ""
          else "
--- PAGE " +:+ pretty (i + 1) +:+ " ---
" +:+ page_text
      | PageEncodingError =>
          "
--- PAGE " +:+ pretty (i + 1) +:+ " ---
Content extraction failed due to encoding issues"
      | PageError =>
          "
--- PAGE " +:+ pretty (i + 1) +:+ " ---
Page extraction error"
      end +:+ page_texts (i + 1) rest
  end.

(** [analyze_pdf] on a file that opens; [None] below is a file that does
    not, for which the answer has no ['full_text']. *)
Definition analyze_pdf (pages : list PageExtract) : PdfAnalysis :=
  let t := page_texts 0 pages in
  mkPdfAnalysis (length pages) t (String.length t)
    (100 <? String.length t)%nat.

Definition failed_pdf : PdfAnalysis := mkPdfAnalysis 0 "" 0 false.

Definition analyze_file (f : option (list PageExtract)) : PdfAnalysis :=
  match f with Some pages => analyze_pdf pages | None => failed_pdf end.

(** The loop of [analyze_all_pdfs] over the files of a folder. *)
Fixpoint combine_pdfs (files : list (string * option (list PageExtract)))
  : string :=
  match files with
  | [] => ""
  | (filename, f) :: rest =>
      "

=== DOCUMENT: " +:+ filename +:+ " ===
" +:+ full_text (analyze_file f) +:+ combine_pdfs rest
  end.

(** The analysis [analyze_all_pdfs] returns for an existing folder. *)
Definition analyze_folder (files : list (string * option (list PageExtract)))
  : DocumentAnalysis :=
  mkAnalysis (combine_pdfs files) (length files).

(** ** Session ids of the web front ([run.py]) *)

(** What [datetime.now()] returns. *)
Record DateTime := mkDateTime {
  dt_year : nat;
  dt_month : nat;
  dt_day : nat;
  dt_hour : nat;
  dt_minute : nat;
  dt_second : nat
}.

(** [%m], [%d], [%H], [%M] and [%S]: decimal, zero-padded to two places. *)
Definition two_digits (n : nat) : string :=
  if (n <? 10)%nat then "0" +:+ pretty n else pretty n.

(** [strftime('%Y-%m-%d_%H-%M-%S')]; [%Y] is the year in decimal. *)
Definition strftime (t : DateTime) : string :=
  pretty (dt_year t) +:+ "-" +:+ two_digits (dt_month t) +:+ "-"
  +:+ two_digits (dt_day t) +:+ "_" +:+ two_digits (dt_hour t) +:+ "-"
  +:+ two_digits (dt_minute t) +:+ "-" +:+ two_digits (dt_second t).

Definition hex_digit (n : N) : ascii :=
  default "0"%char (String.get (N.to_nat (n mod 16)) "0123456789abcdef").

(** [str(uuid)[:8]] of a UUID whose 128-bit value is [u]: its first eight
    hexadecimal digits. *)
Definition uuid_head (u : N) : string :=
  String (hex_digit (u / 16 ^ 31)) (String (hex_digit (u / 16 ^ 30))
  (String (hex_digit (u / 16 ^ 29)) (String (hex_digit (u / 16 ^ 28))
  (String (hex_digit (u / 16 ^ 27)) (String (hex_digit (u / 16 ^ 26))
  (String (hex_digit (u / 16 ^ 25)) (String (hex_digit (u / 16 ^ 24))
  "")))))))%N.

(** [generate_session_id], given what [datetime.now()] and [uuid.uuid4()]
    return. *)
Definition generate_session_id (now : DateTime) (uuid4 : N) : string :=
  let timestamp := strftime now in
  let unique_id := uuid_head uuid4 in
  "session_" +:+ timestamp +:+ "_" +:+ unique_id.

(** ** Further vocabulary *)

Definition registry_inv (w : World) : Prop := ∀ s, ctx_inv (ctxof w s).

(** [m] takes every world to one that is [R]-related to it. *)
Definition keeps (R : World → World → Prop) {A} (m : M A) : Prop :=
  ∀ w, R w (m w).2.

(** [m] raises [cost] by at most [n]. *)
Definition spends (cost : World → nat) (n : nat) {A} (m : M A) : Prop :=
  ∀ w, (cost (m w).2 ≤ cost w + n)%nat.

(** [w'] costs what [w] costs. *)
Definition same_cost (cost : World → nat) (w w' : World) : Prop :=
  cost w' = cost w.

Definition calls_made (w : World) : nat := length (model_log w).

Definition seconds_slept (w : World) : nat := sum_list (sleep_log w).

(** What is left of the sleeping time of one [safe_model_call] when the
    loop is entered at [attempt]. *)
Definition sleep_allowance (attempt : nat) : nat :=
  match attempt with 0 => 30 | 1 => 25 | 2 => 15 | _ => 0 end.

(** Every registered context satisfies the invariant. *)
Definition keeps_registry_inv (w w' : World) : Prop :=
  registry_inv w → registry_inv w'.


Definition same_registry (w w' : World) : Prop :=
  context_registry w' = context_registry w.

(** The archive could not be turned into a folder with documents. *)
Definition archive_failed (o : ArchiveOutcome) : bool :=
  match o with
  | Extracted folder => bool_decide (total_documents folder = 0)
  | _ => true
  end.

(** The archive could not even be downloaded and checked. *)
Definition download_failed (o : ArchiveOutcome) : bool :=
  match o with
  | DownloadRaises _ | FileSize0 | FileTooLarge => true
  | _ => false
  end.

Definition same_model_log (w w' : World) : Prop := model_log w' = model_log w.

(** A session id of the canonical form
    [session_YYYY-MM-DD_HH-MM-SS_xxxxxxxx]. *)
Definition canonical (sid : string) : Prop :=
  match_here session_pattern sid = Some sid.

(** The characters of [combined_content] one file accounts for. *)
Definition document_chars (file : string * option (list PageExtract)) : nat :=
  21 + String.length file.1 + text_length (analyze_file file.2).


(** Between [w] and [w'] time has not gone back, and every result session
    [sid] holds in [w'] either was there in [w] or is a result for one of
    the names [N], stamped between the two. *)
Definition writes (sid : string) (N : string → Prop) (w w' : World) : Prop :=
  (tick w ≤ tick w')%nat
  ∧ ∀ n r, agent_data (ctxof w' sid) !! n = Some r →
           agent_data (ctxof w sid) !! n = Some r
           ∨ (N n ∧ ∃ ts, timestamp r = Some ts
                          ∧ (tick w ≤ ts)%nat ∧ (ts ≤ tick w')%nat).


(** [s] is matched by [p] from its first to its last character. *)
Definition full_match (p : list CharClass) (s : string) : bool :=
  bool_decide (match_here p s = Some s).

Definition demo_now : DateTime := mkDateTime 2025 1 15 10 30 0.

Definition demo_uuid : N := 0xdeadbeef4a3b4c5d8e9f0a1b2c3d4e5f%N.

(** ** Further environments and worlds *)


(** As [E_ok], but every archive exceeds the size limit. *)
Definition E_too_large : Env :=
  mkEnv (fallback_patterns E_ok) (credentials_valid E_ok) (agent_available E_ok)
    (model E_ok) (s3_put_ok E_ok) (s3_get_fault E_ok) (orchestrator E_ok)
    (policy_model E_ok) (render_pdf_ok E_ok) (upload_ok E_ok)
    (λ _ _ _, FileTooLarge)
    (credential_error_html E_ok) (fallback_mode_summary_html E_ok)
    (partial_summary_html E_ok) (json_dumps E_ok).

Definition approved_summary : string :=
  "Final underwriting decision: the application is APPROVED at standard rates; all seven specialist reviews are favourable.".

(** The demo session with [approved_summary] recorded and saved as its
    summary, before the policy tool is called. *)
Definition summarized_world : World :=
  (add_agent_result E_ok demo_sid "summary_generation" approved_summary
     (get_or_create_context demo_sid demo_world).2).2.


(** The world in which the planner of [E_planned] is started. *)
Definition planner_start : World :=
  (step (reset_context_for_session demo_sid (step demo_world).2).2).2.

(** A folder with a PDF of two pages, the second without text, and a file
    that does not open. *)
Definition demo_files : list (string * option (list PageExtract)) :=
  [("application.pdf", Some [PageText "Applicant: Jane Doe"; PageText ""]);
   ("scan.pdf", None)].

(** ** Reasoning about state transformers *)

Lemma bind_run {A B} (m : M A) (f : A → M B) (w : World) :
  (m ≫= f) w = f (m w).1 (m w).2.
Proof. unfold mbind, M_bind. by destruct (m w). Qed.

Lemma core_pres_ret {A} (x : A) : core_pres (mret x).
Proof. done. Qed.

Lemma core_pres_bind {A B} (m : M A) (f : A → M B) :
  core_pres m → (∀ x, core_pres (f x)) → core_pres (m ≫= f).
Proof.
  intros Hm Hf w. rewrite bind_run. by rewrite Hf, Hm.
Qed.

Create HintDb effects.

Ltac core_auto :=
  repeat first
    [ apply core_pres_ret
    | apply core_pres_bind; [| intros ?]
    | solve [auto with effects]
    | case_match ].

Section Proofs.
Context (E : Env).

Lemma step_core : core_pres step.
Proof. done. Qed.
Lemma now_core : core_pres now.
Proof. done. Qed.
Lemma get_world_core : core_pres get_world.
Proof. done. Qed.
Lemma sleep_core n : core_pres (sleep n).
Proof. done. Qed.
Lemma set_s3_core o : core_pres (set_s3 o).
Proof. done. Qed.
Lemma log_model_call_core a : core_pres (log_model_call a).
Proof. done. Qed.
Lemma log_rendered_core a : core_pres (log_rendered a).
Proof. done. Qed.
Lemma log_uploaded_core a : core_pres (log_uploaded a).
Proof. done. Qed.

#[local] Hint Resolve step_core now_core get_world_core sleep_core set_s3_core
  log_model_call_core log_rendered_core log_uploaded_core : effects.

Lemma validate_aws_credentials_core : core_pres (validate_aws_credentials E).
Proof. unfold validate_aws_credentials. core_auto. Qed.

Lemma get_object_core k : core_pres (get_object E k).
Proof. unfold get_object. core_auto. Qed.

Lemma put_object_core k d : core_pres (put_object E k d).
Proof. unfold put_object. core_auto. Qed.

#[local] Hint Resolve validate_aws_credentials_core get_object_core
  put_object_core : effects.

Lemma save_agent_status_core c : core_pres (save_agent_status E c).
Proof. unfold save_agent_status. core_auto. Qed.

Lemma call_agent_core a p : core_pres (call_agent E a p).
Proof. unfold call_agent. core_auto. Qed.

#[local] Hint Resolve save_agent_status_core call_agent_core : effects.

Lemma safe_model_loop_core a p mx attempt remaining :
  core_pres (safe_model_loop E a p mx attempt remaining).
Proof.
  revert attempt. induction remaining as [|r IH]; intros attempt; simpl.
  - core_auto.
  - core_auto.
Qed.

#[local] Hint Resolve safe_model_loop_core : effects.

Lemma safe_model_call_core a p : core_pres (safe_model_call E a p).
Proof. unfold safe_model_call, safe_model_call_with. core_auto. Qed.

Lemma generate_health_insurance_policy_core sid :
  core_pres (generate_health_insurance_policy E sid).
Proof. unfold generate_health_insurance_policy. core_auto. Qed.


(** ** The retry loop *)

Lemma validate_aws_credentials_run w :
  validate_aws_credentials E w = (credentials_valid E (tick w), (step w).2).
Proof. done. Qed.

Lemma call_agent_run a p w :
  call_agent E a p w = (model E a p (tick w), after_call a w).
Proof. done. Qed.

(** One iteration of the loop, by what the call did. *)
Lemma safe_model_loop_unfold a p mx attempt remaining w :
  safe_model_loop E a p mx attempt (S remaining) w =
  match model E a p (tick w) with
  | Returns result =>
      if short_result result
      then if (attempt <? mx - 1)%nat
           then safe_model_loop E a p mx (attempt + 1) remaining
                  (after_sleep 1 (after_call a w))
           else (PStr (if truthy result then text result
                       else "No response received from model"),
                 after_call a w)
      else (PResult result, after_call a w)
  | Raises msg =>
      if credential_error msg
      then (PStr (authentication_error_text msg), after_call a w)
      else if contains "throttling" (lower msg) || contains "rate" (lower msg)
      then safe_model_loop E a p mx (attempt + 1) remaining
             (after_sleep (5 * (attempt + 1)) (after_call a w))
      else if contains "not found" (lower msg)
              || contains "does not exist" (lower msg)
      then (PStr ("Model Error: Nova Pro model may not be available in your region. Details: " +:+ msg),
            after_call a w)
      else if (attempt <? mx - 1)%nat
      then safe_model_loop E a p mx (attempt + 1) remaining
             (after_sleep 2 (after_call a w))
      else (PStr ("Model call failed after " +:+ pretty mx
                  +:+ " attempts. Final error: " +:+ msg),
            after_call a w)
  end.
Proof.
  cbn [safe_model_loop]. rewrite bind_run, call_agent_run. cbn [fst snd].
  unfold short_result, credential_error.
  destruct (model E a p (tick w)) as [r|msg].
  - destruct (truthy r && (10 <? String.length (text r))%nat); cbn [negb];
      [done|].
    destruct (attempt <? mx - 1)%nat; done.
  - destruct (any_in credential_keywords (lower msg)); [done|].
    destruct (contains "throttling" (lower msg) || contains "rate" (lower msg));
      [done|].
    destruct (contains "not found" (lower msg)
              || contains "does not exist" (lower msg)); [done|].
    destruct (attempt <? mx - 1)%nat; done.
Qed.

#[local] Arguments safe_model_loop : simpl never.

Lemma after_sleep_log n w : model_log (after_sleep n w) = model_log w.
Proof. done. Qed.

Lemma safe_model_loop_calls a p mx attempt remaining w :
  (length (model_log (safe_model_loop E a p mx attempt remaining w).2)
   ≤ length (model_log w) + remaining)%nat.
Proof.
  revert attempt w. induction remaining as [|r IH]; intros attempt w.
  - simpl. lia.
  - rewrite safe_model_loop_unfold.
    repeat case_match; simpl;
      try (etrans; [apply IH|]; simpl); lia.
Qed.

Lemma safe_model_call_calls a p w :
  (length (model_log (safe_model_call E a p w).2) ≤ length (model_log w) + 3)%nat.
Proof.
  unfold safe_model_call, safe_model_call_with.
  rewrite bind_run, validate_aws_credentials_run. cbn [fst snd].
  destruct (credentials_valid E (tick w)); cbn [negb].
  - etrans; [apply safe_model_loop_calls|]. simpl. lia.
  - simpl. lia.
Qed.




(** ** The context invariant *)

Lemma specialists_size : size specialists = 7.
Proof. by vm_compute. Qed.

Lemma ctx_inv_new : ctx_inv new_context.
Proof.
  unfold ctx_inv, new_context; simpl.
  split_and!; try set_solver. apply map_Forall_empty.
Qed.

Lemma ctx_inv_set_document_content c d :
  ctx_inv c → ctx_inv (set_document_content c d).
Proof. done. Qed.

Lemma ctx_inv_set_session_id c s t : ctx_inv c → ctx_inv (set_session_id c s t).
Proof. done. Qed.

Lemma ctx_inv_record_specialist c name r t :
  name ∈ specialists → ctx_inv c → ctx_inv (record_result c name r t).
Proof.
  intros Hn (Hdom & Hall & Hsum & Hpol & Hst).
  unfold ctx_inv, record_result; simpl.
  split_and!.
  - rewrite dom_insert_L. by rewrite Hdom.
  - unfold all_names. set_solver.
  - set_solver.
  - intros [Heq%elem_of_singleton|Hin]%elem_of_union.
    + exfalso. subst name. revert Hn. by vm_compute.
    + set_solver.
  - by apply map_Forall_insert_2.
Qed.

Lemma ctx_inv_specialists_done c :
  ctx_inv c → (7 ≤ size (agent_data c))%nat →
  "summary_generation" ∉ processed_agents c →
  processed_agents c = specialists.
Proof.
  intros (Hdom & Hall & Hsum & Hpol & Hst) Hsize Hns.
  apply set_subseteq_size_eq.
  - intros x Hx. specialize (Hall x Hx). unfold all_names in Hall.
    apply elem_of_union in Hall as [?|Hx']; [done|].
    exfalso.
    apply elem_of_union in Hx' as [Hx'%elem_of_singleton|Hx'%elem_of_singleton];
      subst x.
    + done.
    + by apply Hns, Hpol.
  - rewrite specialists_size, <- Hdom, size_dom. done.
Qed.

Lemma ctx_inv_record_summary c r t :
  ctx_inv c → (7 ≤ size (agent_data c))%nat →
  "summary_generation" ∉ processed_agents c →
  ctx_inv (record_result c "summary_generation" r t).
Proof.
  intros Hinv Hsize Hns.
  pose proof (ctx_inv_specialists_done c Hinv Hsize Hns) as Hsp.
  destruct Hinv as (Hdom & Hall & Hsum & Hpol & Hst).
  unfold ctx_inv, record_result; simpl.
  split_and!.
  - rewrite dom_insert_L. by rewrite Hdom.
  - unfold all_names. set_solver.
  - intros _. rewrite Hsp. set_solver.
  - set_solver.
  - by apply map_Forall_insert_2.
Qed.

Lemma ctx_inv_record_policy c r t :
  ctx_inv c → "summary_generation" ∈ processed_agents c →
  ctx_inv (record_result c "policy_generation" r t).
Proof.
  intros (Hdom & Hall & Hsum & Hpol & Hst) Hs.
  unfold ctx_inv, record_result; simpl.
  split_and!.
  - rewrite dom_insert_L. by rewrite Hdom.
  - unfold all_names. set_solver.
  - set_solver.
  - set_solver.
  - by apply map_Forall_insert_2.
Qed.


(** ** Effects on the registry *)

Lemma ctxof_insert_eq w w' s c :
  context_registry w' = <[s := c]> (context_registry w) → ctxof w' s = c.
Proof. unfold ctxof. intros ->. by rewrite lookup_insert_eq. Qed.

Lemma ctxof_insert_ne w w' s s' c :
  context_registry w' = <[s := c]> (context_registry w) → s ≠ s' →
  ctxof w' s' = ctxof w s'.
Proof. unfold ctxof. intros -> ?. by rewrite lookup_insert_ne. Qed.

Lemma ctxof_core w w' s : core w' = core w → ctxof w' s = ctxof w s.
Proof. unfold ctxof, core. by intros [= -> _]. Qed.

Lemma get_or_create_context_run s w :
  get_or_create_context s w =
  match context_registry w !! s with
  | Some c => (c, w)
  | None =>
      (set_session_id new_context s (tick w),
       (set_registry (<[s := set_session_id new_context s (tick w)]>
                        (context_registry w)) w).2)
  end.
Proof.
  unfold get_or_create_context. rewrite bind_run. cbn [get_world fst snd].
  by destruct (context_registry w !! s).
Qed.

Lemma update_context_run s f w :
  update_context s f w =
  (f (ctxof w s),
   (set_registry (<[s := f (ctxof w s)]> (context_registry w)) w).2).
Proof. done. Qed.

Lemma add_agent_result_core s n r w :
  core (add_agent_result E s n r w).2 =
  (<[s := record_result (ctxof w s) n r (tick w)]> (context_registry w),
   upload_folder w).
Proof.
  unfold add_agent_result. rewrite bind_run. cbn [now fst snd].
  rewrite bind_run, update_context_run. cbn [fst snd].
  by rewrite save_agent_status_core.
Qed.

Lemma frame_refl s w : frame s w w.
Proof. unfold frame. naive_solver. Qed.

Lemma frame_trans s w1 w2 w3 : frame s w1 w2 → frame s w2 w3 → frame s w1 w3.
Proof.
  intros (Hf1 & Hi1 & Hp1 & Hb1) (Hf2 & Hi2 & Hp2 & Hb2).
  unfold frame. split_and!.
  - by rewrite Hf2.
  - auto.
  - set_solver.
  - intros Hn Hb. apply Hb2; [by rewrite Hf1|]. by apply Hb1.
Qed.

Lemma frame_core s w w' : core w' = core w → frame s w w'.
Proof.
  intros Hc. unfold frame. rewrite (ctxof_core _ _ _ Hc).
  injection Hc as _ ->. naive_solver.
Qed.

(** The session [sid] gets the context [c]; nothing else changes. *)
Lemma frame_insert s sid c w w' :
  core w' = (<[sid := c]> (context_registry w), upload_folder w) →
  (ctx_inv (ctxof w sid) → ctx_inv c) →
  processed_agents (ctxof w sid) ⊆ processed_agents c →
  (upload_folder w !! sid = None → blank (ctxof w sid) → blank c) →
  frame s w w'.
Proof.
  intros [= Hr Hf] Hi Hp Hb. unfold frame.
  destruct (decide (sid = s)) as [->|Hne].
  - rewrite (ctxof_insert_eq _ _ _ _ Hr). by rewrite Hf.
  - rewrite (ctxof_insert_ne _ _ _ _ _ Hr Hne). rewrite Hf. naive_solver.
Qed.

Lemma get_or_create_context_spec s w :
  ctxof (get_or_create_context s w).2 s = (get_or_create_context s w).1
  ∧ agent_data (get_or_create_context s w).1 = agent_data (ctxof w s)
  ∧ processed_agents (get_or_create_context s w).1 = processed_agents (ctxof w s)
  ∧ document_content (get_or_create_context s w).1 = document_content (ctxof w s)
  ∧ upload_folder (get_or_create_context s w).2 = upload_folder w
  ∧ ∀ s', frame s' w (get_or_create_context s w).2.
Proof.
  rewrite get_or_create_context_run. unfold ctxof at 2 3 4.
  destruct (context_registry w !! s) as [c|] eqn:Hc; cbn [fst snd].
  - unfold ctxof. rewrite Hc. split_and!; try done.
  - split_and!; try done.
    + by eapply ctxof_insert_eq.
    + intros s'. eapply frame_insert; [done|..].
      * intros _. apply ctx_inv_set_session_id, ctx_inv_new.
      * unfold ctxof. by rewrite Hc.
      * done.
Qed.


(** ** The stage tools *)

Lemma analyze_all_pdfs_run s w :
  analyze_all_pdfs s w =
  (match upload_folder w !! s with
   | None => inl "Session folder not found"
   | Some a => inr a
   end, w).
Proof.
  unfold analyze_all_pdfs. rewrite bind_run. cbn [get_world fst snd].
  by destruct (upload_folder w !! s).
Qed.

Lemma blank_not_loaded c : document_content c ≠ "" → ¬ blank c.
Proof. intros ? (_ & _ & ?). done. Qed.

Lemma spec_shift w w1 sid name (X : World) :
  (∀ s, frame s w w1) → upload_folder w1 = upload_folder w →
  ((∀ s, frame s w1 X)
   ∧ (is_Some (upload_folder w1 !! sid) → name ∈ processed_agents (ctxof X sid))) →
  (∀ s, frame s w X)
  ∧ (∀ sid', Some sid = Some sid' → is_Some (upload_folder w !! sid') →
             name ∈ processed_agents (ctxof X sid')).
Proof.
  intros Hfr Hf [H1 H2]. split.
  - intros s. eapply frame_trans; [apply Hfr|apply H1].
  - intros ? [= <-] Hs. apply H2. by rewrite Hf.
Qed.

Lemma specialist_tool_spec name ac na q arg w :
  name ∈ specialists →
  (∀ s, frame s w (specialist_tool E name ac na q arg w).2)
  ∧ (∀ sid, extract_session_id E arg = Some sid →
            is_Some (upload_folder w !! sid) →
            name ∈ processed_agents (ctxof (specialist_tool E name ac na q arg w).2 sid)).
Proof.
  intros Hname. unfold specialist_tool.
  destruct (extract_session_id E arg) as [sid|]; [|by split; [intros; apply frame_refl|]].
  rewrite bind_run.
  destruct (get_or_create_context_spec sid w) as (Hc & Hd & Hp & Hdoc & Hf & Hfr).
  set (c := (get_or_create_context sid w).1) in *.
  set (w1 := (get_or_create_context sid w).2) in *.
  apply (spec_shift w w1 sid name); [done..|].
  unfold has_processed. case_bool_decide as Hproc.
  { split; [intros; apply frame_refl|]. intros _. cbn [mret M_ret fst snd]. by rewrite Hc. }
  rewrite bind_run.
  case_bool_decide as Hempty.
  - rewrite bind_run, analyze_all_pdfs_run. cbn [fst snd].
    destruct (upload_folder w1 !! sid) as [a|] eqn:Hfolder; cbn [mret M_ret fst snd].
    2:{ split; [intros; apply frame_refl|]. by intros [? ?]. }
    rewrite bind_run, update_context_run. cbn [mret M_ret fst snd].
    rewrite bind_run.
    match goal with |- context [add_agent_result E sid name (?m ?w0).1] =>
      set (an := m w0);
      assert (core an.2 = (<[sid := set_document_content c (combined_content a)]> (context_registry w1), upload_folder w1)) as Hcore
    end.
    { subst an. case_match.
      - rewrite bind_run. cbn [mret M_ret fst snd]. by rewrite safe_model_call_core, Hc.
      - cbn [mret M_ret fst snd]. by rewrite Hc. }
    rewrite bind_run. cbn [mret M_ret fst snd].
    pose proof (add_agent_result_core sid name an.1 an.2) as Hcore'.
    injection Hcore as Hreg Hup.
    rewrite (ctxof_insert_eq _ _ _ _ Hreg) in Hcore'.
    rewrite Hreg, insert_insert_eq, Hup in Hcore'.
    split.
    + intros s. eapply frame_insert; [exact Hcore'|..].
      * rewrite Hc. intros Hi. by apply ctx_inv_record_specialist.
      * rewrite Hc. simpl. set_solver.
      * by rewrite Hfolder.
    + intros _. injection Hcore' as Hreg' _.
      rewrite (ctxof_insert_eq _ _ _ _ Hreg'). simpl. set_solver.
  - cbn [mret M_ret fst snd]. rewrite bind_run.
    match goal with |- context [add_agent_result E sid name (?m ?w0).1] =>
      set (an := m w0);
      assert (core an.2 = core w1) as Hcore
    end.
    { subst an. case_match.
      - rewrite bind_run. cbn [mret M_ret fst snd]. by rewrite safe_model_call_core.
      - done. }
    rewrite bind_run. cbn [mret M_ret fst snd].
    pose proof (add_agent_result_core sid name an.1 an.2) as Hcore'.
    rewrite (ctxof_core _ _ _ Hcore), Hc in Hcore'.
    injection Hcore as Hreg Hup. rewrite Hreg, Hup in Hcore'.
    split.
    + intros s. eapply frame_insert; [exact Hcore'|..].
      * rewrite Hc. intros Hi. by apply ctx_inv_record_specialist.
      * rewrite Hc. simpl. set_solver.
      * intros _ Hb. rewrite Hc in Hb. by apply blank_not_loaded in Hb.
    + intros _. injection Hcore' as Hreg' _.
      rewrite (ctxof_insert_eq _ _ _ _ Hreg'). simpl. set_solver.
Qed.


Lemma data_intake_specialist : "data_intake" ∈ specialists.
Proof. by vm_compute. Qed.

Lemma data_intake_tool_spec arg w :
  (∀ s, frame s w (data_intake_tool E arg w).2)
  ∧ (∀ sid, extract_session_id E arg = Some sid →
            is_Some (upload_folder w !! sid) →
            "data_intake" ∈ processed_agents (ctxof (data_intake_tool E arg w).2 sid)).
Proof.
  unfold data_intake_tool.
  destruct (extract_session_id E arg) as [sid|]; [|by split; [intros; apply frame_refl|]].
  rewrite bind_run.
  destruct (get_or_create_context_spec sid w) as (Hc & Hd & Hp & Hdoc & Hf & Hfr).
  set (c := (get_or_create_context sid w).1) in *.
  set (w1 := (get_or_create_context sid w).2) in *.
  apply (spec_shift w w1 sid "data_intake"); [done..|].
  unfold has_processed. case_bool_decide as Hproc.
  { split; [intros; apply frame_refl|]. intros _. cbn [mret M_ret fst snd]. by rewrite Hc. }
  rewrite bind_run, analyze_all_pdfs_run. cbn [fst snd].
  destruct (upload_folder w1 !! sid) as [a|] eqn:Hfolder; cbn [mret M_ret fst snd].
  2:{ split; [intros; apply frame_refl|]. by intros [? ?]. }
  rewrite bind_run, update_context_run. cbn [mret M_ret fst snd].
  rewrite bind_run.
  match goal with |- context [add_agent_result E sid "data_intake" (?m ?w0).1] =>
    set (an := m w0);
    assert (core an.2 = (<[sid := set_document_content c (combined_content a)]> (context_registry w1), upload_folder w1)) as Hcore
  end.
  { subst an. case_match.
    - rewrite bind_run. cbn [mret M_ret fst snd]. by rewrite safe_model_call_core, Hc.
    - cbn [mret M_ret fst snd]. by rewrite Hc. }
  rewrite bind_run. cbn [mret M_ret fst snd].
  pose proof (add_agent_result_core sid "data_intake" an.1 an.2) as Hcore'.
  injection Hcore as Hreg Hup.
  rewrite (ctxof_insert_eq _ _ _ _ Hreg) in Hcore'.
  rewrite Hreg, insert_insert_eq, Hup in Hcore'.
  split.
  - intros s. eapply frame_insert; [exact Hcore'|..].
    + rewrite Hc. intros Hi. apply ctx_inv_record_specialist; [|done].
      apply data_intake_specialist.
    + rewrite Hc. simpl. set_solver.
    + by rewrite Hfolder.
  - intros _. injection Hcore' as Hreg' _.
    rewrite (ctxof_insert_eq _ _ _ _ Hreg'). simpl. set_solver.
Qed.

Lemma blank_not_processed c n : n ∈ processed_agents c → ¬ blank c.
Proof. intros Hn (_ & He & _). rewrite He in Hn. set_solver. Qed.

Lemma policy_generation_tool_frame arg w s :
  frame s w (policy_generation_tool E arg w).2.
Proof.
  unfold policy_generation_tool.
  destruct (extract_session_id E arg) as [sid|]; [|apply frame_refl].
  rewrite bind_run.
  destruct (get_or_create_context_spec sid w) as (Hc & Hd & Hp & Hdoc & Hf & Hfr).
  set (c := (get_or_create_context sid w).1) in *.
  set (w1 := (get_or_create_context sid w).2) in *.
  eapply frame_trans; [apply Hfr|].
  unfold has_processed. case_bool_decide as Hproc; cbn [negb]; [|apply frame_refl].
  rewrite bind_run.
  pose proof (generate_health_insurance_policy_core sid w1) as Hcore.
  set (g := generate_health_insurance_policy E sid w1) in *.
  assert (∀ r, frame s w1 (add_agent_result E sid "policy_generation" r g.2).2) as Hadd.
  { intros r. pose proof (add_agent_result_core sid "policy_generation" r g.2) as Hcore'.
    rewrite (ctxof_core _ _ _ Hcore), Hc in Hcore'.
    injection Hcore as Hreg Hup. rewrite Hreg, Hup in Hcore'.
    eapply frame_insert; [exact Hcore'|..].
    - rewrite Hc. intros Hi. by apply ctx_inv_record_policy.
    - rewrite Hc. simpl. set_solver.
    - intros _ Hb. rewrite Hc in Hb.
      by apply (blank_not_processed _ "summary_generation") in Hb. }
  repeat case_bool_decide; rewrite ?bind_run; cbn [mret M_ret fst snd];
    first [apply Hadd | by apply frame_core].
Qed.

Lemma ctx_inv_size c :
  ctx_inv c → specialists ⊆ processed_agents c → (7 ≤ size (agent_data c))%nat.
Proof.
  intros (Hdom & _) Hsub. rewrite <- size_dom, Hdom, <- specialists_size.
  by apply subseteq_size.
Qed.

Lemma blank_size c : (7 ≤ size (agent_data c))%nat → ¬ blank c.
Proof. intros Hs (He & _). rewrite He, map_size_empty in Hs. lia. Qed.

Lemma summary_generation_tool_spec arg w :
  (∀ s, frame s w (summary_generation_tool E arg w).2)
  ∧ (∀ sid, extract_session_id E arg = Some sid →
            ctx_inv (ctxof w sid) → specialists ⊆ processed_agents (ctxof w sid) →
            "summary_generation"
            ∈ processed_agents (ctxof (summary_generation_tool E arg w).2 sid)).
Proof.
  unfold summary_generation_tool.
  destruct (extract_session_id E arg) as [sid|]; [|by split; [intros; apply frame_refl|]].
  rewrite bind_run.
  destruct (get_or_create_context_spec sid w) as (Hc & Hd & Hp & Hdoc & Hf & Hfr).
  set (c := (get_or_create_context sid w).1) in *.
  set (w1 := (get_or_create_context sid w).2) in *.
  enough (∀ X, ((∀ s, frame s w1 X) ∧ (ctx_inv c → specialists ⊆ processed_agents c →
                   "summary_generation" ∈ processed_agents (ctxof X sid))) →
               (∀ s, frame s w X) ∧ (∀ sid', Some sid = Some sid' →
                   ctx_inv (ctxof w sid') → specialists ⊆ processed_agents (ctxof w sid') →
                   "summary_generation" ∈ processed_agents (ctxof X sid'))) as Hshift.
  2:{ intros X [H1 H2]. split.
      - intros s. eapply frame_trans; [apply Hfr|apply H1].
      - intros ? [= <-] Hi Hs. apply H2.
        + rewrite <- Hc. by apply (Hfr sid).
        + by rewrite Hp. }
  apply Hshift. clear Hshift.
  unfold has_processed. case_bool_decide as Hproc.
  { split; [intros; apply frame_refl|]. intros _ _. cbn [mret M_ret fst snd]. by rewrite Hc. }
  unfold get_all_insights. rewrite map_size_fmap.
  destruct (size (agent_data c) <? 7)%nat eqn:Hsize.
  { split; [intros; apply frame_refl|]. intros Hi Hs.
    apply Nat.ltb_lt in Hsize. pose proof (ctx_inv_size c Hi Hs). lia. }
  apply Nat.ltb_ge in Hsize.
  rewrite bind_run.
  match goal with |- context [add_agent_result E sid "summary_generation" (?m ?w0).1] =>
    set (an := m w0);
    assert (core an.2 = core w1) as Hcore
  end.
  { subst an. case_match.
    - rewrite !bind_run. cbn [now mret M_ret fst snd]. by rewrite safe_model_call_core.
    - done. }
  rewrite bind_run.
  pose proof (add_agent_result_core sid "summary_generation" an.1 an.2) as Hcore'.
  rewrite (ctxof_core _ _ _ Hcore), Hc in Hcore'.
  injection Hcore as Hreg Hup. rewrite Hreg, Hup in Hcore'.
  set (w4 := (add_agent_result E sid "summary_generation" an.1 an.2).2) in *.
  assert (∀ s, frame s w1 w4) as Hfr4.
  { intros s. eapply frame_insert; [exact Hcore'|..].
    - rewrite Hc. intros Hi. by apply ctx_inv_record_summary.
    - rewrite Hc. simpl. set_solver.
    - intros _ Hb. rewrite Hc in Hb. by apply blank_size in Hb. }
  rewrite bind_run. cbn [mret M_ret fst snd].
  split.
  - intros s. eapply frame_trans; [apply Hfr4|apply policy_generation_tool_frame].
  - intros _ _.
    destruct (policy_generation_tool_frame ("Session ID: " +:+ sid) w4 sid)
      as (_ & _ & Hsub & _).
    apply Hsub. injection Hcore' as Hreg' _.
    rewrite (ctxof_insert_eq _ _ _ _ Hreg'). simpl. set_solver.
Qed.


Lemma tool_function_frame t arg w s : frame s w (tool_function E t arg w).2.
Proof.
  destruct t; cbn [tool_function];
    first [ apply data_intake_tool_spec
          | apply summary_generation_tool_spec
          | apply specialist_tool_spec; by vm_compute ].
Qed.

Lemma tool_function_progress t arg w sid :
  t ≠ summary_generation →
  extract_session_id E arg = Some sid →
  is_Some (upload_folder w !! sid) →
  stage_name t ∈ processed_agents (ctxof (tool_function E t arg w).2 sid).
Proof.
  intros Ht He Hf.
  destruct t; cbn [tool_function stage_name]; try done;
    first [ by apply data_intake_tool_spec
          | apply specialist_tool_spec; [by vm_compute|done..] ].
Qed.

(** ** The sequential run *)

Lemma run_agents_frame l input w s : frame s w (run_agents E l input w).2.
Proof.
  revert w. induction l as [|t l IH]; intros w; cbn [run_agents].
  - apply frame_refl.
  - rewrite bind_run.
    eapply frame_trans; [apply tool_function_frame|].
    case_bool_decide; [apply frame_refl|apply IH].
Qed.

Lemma stage_name_summary t :
  stage_name t = "summary_generation" ↔ t = summary_generation.
Proof. split; [by destruct t|by intros ->]. Qed.

Lemma run_agents_specialists l input w sid :
  summary_generation ∉ l →
  extract_session_id E input = Some sid →
  is_Some (upload_folder w !! sid) →
  (run_agents E l input w).1 = None
  ∧ ∀ t, t ∈ l →
         stage_name t ∈ processed_agents (ctxof (run_agents E l input w).2 sid).
Proof.
  intros Hl He. revert w. induction l as [|t l IH]; intros w Hf; cbn [run_agents].
  - split; [done|]. by intros t ?%elem_of_nil.
  - apply not_elem_of_cons in Hl as [Hne Hl].
    rewrite bind_run.
    case_bool_decide as Hs; [by apply stage_name_summary in Hs|].
    set (w1 := (tool_function E t input w).2).
    assert (is_Some (upload_folder w1 !! sid)) as Hf1.
    { destruct (tool_function_frame t input w sid) as (Hup & _).
      subst w1. by rewrite Hup. }
    destruct (IH Hl w1 Hf1) as [Hnone Hin].
    split; [done|].
    intros t' [->|Ht']%elem_of_cons; [|by apply Hin].
    destruct (run_agents_frame l input w1 sid) as (_ & _ & Hsub & _).
    apply Hsub. by apply tool_function_progress.
Qed.

Lemma run_agents_app l1 l2 input w :
  summary_generation ∉ l1 →
  run_agents E (l1 ++ l2)%list input w =
  run_agents E l2 input (run_agents E l1 input w).2.
Proof.
  revert w. induction l1 as [|t l1 IH]; intros w Hl; [done|].
  apply not_elem_of_cons in Hl as [Hne Hl].
  cbn [app run_agents]. rewrite !bind_run.
  case_bool_decide as Hs; [by apply stage_name_summary in Hs|].
  by apply IH.
Qed.

Lemma specialist_tools_no_summary : summary_generation ∉ specialist_tools.
Proof. unfold specialist_tools. set_solver. Qed.

Lemma specialists_stage_names n :
  n ∈ specialists → ∃ t, t ∈ specialist_tools ∧ stage_name t = n.
Proof.
  unfold specialists, specialist_names, specialist_tools.
  rewrite elem_of_list_to_set. intros Hn.
  repeat (apply elem_of_cons in Hn as [->|Hn]).
  1: exists data_intake. 2: exists document_verification.
  3: exists medical_risk_assessment. 4: exists financial. 5: exists driving.
  6: exists compliance. 7: exists lifestyle_behavioral.
  1-7: split; [set_solver|done].
  by apply elem_of_nil in Hn.
Qed.

(** After the eight tools have run on a session whose folder exists, all
    eight stages are processed. *)
Lemma run_agents_complete input w sid :
  extract_session_id E input = Some sid →
  is_Some (upload_folder w !! sid) →
  ctx_inv (ctxof w sid) →
  ctx_inv (ctxof (run_agents E agents input w).2 sid)
  ∧ specialists ∪ {["summary_generation"]}
    ⊆ processed_agents (ctxof (run_agents E agents input w).2 sid).
Proof.
  intros He Hf Hi.
  change agents with (specialist_tools ++ [summary_generation])%list.
  rewrite run_agents_app by apply specialist_tools_no_summary.
  destruct (run_agents_specialists specialist_tools input w sid
              specialist_tools_no_summary He Hf) as [_ Hin].
  pose proof (run_agents_frame specialist_tools input w sid) as (Hf7 & Hi7 & _).
  set (w7 := (run_agents E specialist_tools input w).2) in *.
  assert (specialists ⊆ processed_agents (ctxof w7 sid)) as Hsp.
  { intros n (t & Ht & <-)%specialists_stage_names. by apply Hin. }
  cbn [run_agents]. rewrite bind_run.
  case_bool_decide; [|done]. cbn [mret M_ret fst snd].
  destruct (summary_generation_tool_spec input w7) as [Hfr Hsum].
  destruct (Hfr sid) as (_ & Hi8 & Hsub & _).
  split; [auto|].
  apply union_subseteq. split; [set_solver|].
  apply singleton_subseteq_l. apply Hsum; auto.
Qed.


Lemma manual_process_underwriting_world input sid w :
  (manual_process_underwriting E input sid w).2 = (run_agents E agents input w).2.
Proof.
  unfold manual_process_underwriting. rewrite bind_run.
  change agents with (specialist_tools ++ [summary_generation])%list.
  rewrite run_agents_app by apply specialist_tools_no_summary.
  cbn [run_agents]. rewrite bind_run.
  case_bool_decide; done.
Qed.

Lemma stage_name_canonical t :
  stage_name t ∈ specialists ∪ {["summary_generation"]}.
Proof. destruct t; by vm_compute. Qed.

Lemma ctx_inv_recorded c n :
  ctx_inv c → n ∈ processed_agents c →
  ∃ r, agent_data c !! n = Some r ∧ status r = "completed".
Proof.
  intros (Hdom & _ & _ & _ & Hst) Hn.
  rewrite <- Hdom in Hn. apply elem_of_dom in Hn as [r Hr].
  exists r. split; [done|]. by apply (Hst n).
Qed.

(** C2 (never halt).  Take a session whose id the stages can read from
    their input and whose folder of extracted documents exists, with a
    context as the tools build them.  Whatever the capability does at any
    stage, in particular when it raises at every attempt of one stage, the
    sequential run records a [completed] result for each of the eight
    stages, the summary included, and the overall status that
    [save_agent_status] reports is [completed]. *)
Theorem never_halt (underwriting_input sid : string) (w : World) :
  extract_session_id E underwriting_input = Some sid →
  is_Some (upload_folder w !! sid) →
  ctx_inv (ctxof w sid) →
  let w' := (manual_process_underwriting E underwriting_input sid w).2 in
  (∀ t : Tool, ∃ r, agent_data (ctxof w' sid) !! stage_name t = Some r
                    ∧ status r = "completed")
  ∧ overall_status (ctxof w' sid) = Some "completed".
Proof.
  intros He Hf Hi w'. subst w'.
  rewrite manual_process_underwriting_world.
  destruct (run_agents_complete underwriting_input w sid He Hf Hi) as [Hi' Hall].
  split.
  - intros t. apply ctx_inv_recorded; [done|].
    apply Hall, stage_name_canonical.
  - unfold overall_status, status_data. cbn [doc_status].
    rewrite bool_decide_eq_true_2; [done|]. set_solver.
Qed.

(** ** The planner *)

Lemma run_plan_frame p w s : frame s w (run_plan E p w).2.
Proof.
  revert w. induction p as [r|msg|t arg k IH]; intros w; cbn [run_plan].
  - apply frame_refl.
  - apply frame_refl.
  - rewrite bind_run.
    eapply frame_trans; [apply tool_function_frame|apply IH].
Qed.




(** ** What a stage records *)

Lemma get_or_create_context_clock s w :
  tick (get_or_create_context s w).2 = tick w
  ∧ model_log (get_or_create_context s w).2 = model_log w
  ∧ s3_objects (get_or_create_context s w).2 = s3_objects w.
Proof.
  rewrite get_or_create_context_run.
  by destruct (context_registry w !! s).
Qed.

Lemma add_agent_result_recorded s n r w :
  agent_data (ctxof (add_agent_result E s n r w).2 s) !! n
  = Some (mkAgentRecord r (Some (tick w)) "completed").
Proof.
  pose proof (add_agent_result_core s n r w) as [= Hreg _].
  rewrite (ctxof_insert_eq _ _ _ _ Hreg). simpl. by rewrite lookup_insert_eq.
Qed.

Lemma policy_generation_tool_agent_data arg w s n :
  n ≠ "policy_generation" →
  agent_data (ctxof (policy_generation_tool E arg w).2 s) !! n
  = agent_data (ctxof w s) !! n.
Proof.
  intros Hn. unfold policy_generation_tool.
  destruct (extract_session_id E arg) as [sid|]; [|done].
  rewrite bind_run.
  assert (∀ s, agent_data (ctxof (get_or_create_context sid w).2 s)
               = agent_data (ctxof w s)) as Hgoc.
  { intros s'. rewrite get_or_create_context_run. unfold ctxof.
    destruct (context_registry w !! sid) as [c|] eqn:Hc; cbn [fst snd]; [done|].
    simpl. destruct (decide (sid = s')) as [->|Hne].
    - by rewrite lookup_insert_eq, Hc.
    - by rewrite lookup_insert_ne. }
  set (c := (get_or_create_context sid w).1) in *.
  set (w1 := (get_or_create_context sid w).2) in *.
  rewrite <- Hgoc.
  destruct (has_processed c "summary_generation"); cbn [negb]; [|done].
  rewrite bind_run.
  pose proof (generate_health_insurance_policy_core sid w1) as Hcore.
  set (g := generate_health_insurance_policy E sid w1) in *.
  assert (∀ r, agent_data (ctxof (add_agent_result E sid "policy_generation" r g.2).2 s) !! n
               = agent_data (ctxof w1 s) !! n) as Hadd.
  { intros r. pose proof (add_agent_result_core sid "policy_generation" r g.2) as [= Hreg _].
    rewrite <- (ctxof_core _ _ s Hcore).
    destruct (decide (sid = s)) as [->|Hne].
    - rewrite (ctxof_insert_eq _ _ _ _ Hreg). simpl. by rewrite lookup_insert_ne.
    - by rewrite (ctxof_insert_ne _ _ _ _ _ Hreg Hne). }
  repeat case_bool_decide; rewrite ?bind_run; cbn [mret M_ret fst snd];
    first [apply Hadd | by rewrite (ctxof_core _ _ s Hcore)].
Qed.

Lemma specialist_tool_records name ac na q arg sid w :
  extract_session_id E arg = Some sid →
  has_processed (ctxof w sid) name = false →
  agent_available E name = true →
  negb (bool_decide (document_content (ctxof w sid) = ""))
  || bool_decide (is_Some (upload_folder w !! sid)) = true →
  ∃ prompt w2,
    tick w2 = tick w ∧ model_log w2 = model_log w
    ∧ (specialist_tool E name ac na q arg w).1
      = str (safe_model_call E name prompt w2).1
    ∧ agent_data (ctxof (specialist_tool E name ac na q arg w).2 sid) !! name
      = Some (mkAgentRecord (str (safe_model_call E name prompt w2).1)
                (Some (tick (safe_model_call E name prompt w2).2)) "completed").
Proof.
  intros He Hproc Hav Hdocs. unfold specialist_tool. rewrite He, bind_run.
  destruct (get_or_create_context_spec sid w) as (Hc & Hd & Hp & Hdoc & Hf & Hfr).
  destruct (get_or_create_context_clock sid w) as (Ht & Hl & _).
  set (c := (get_or_create_context sid w).1) in *.
  set (w1 := (get_or_create_context sid w).2) in *.
  unfold has_processed in *. rewrite Hp, Hproc, bind_run, Hav.
  rewrite Hdoc. rewrite <- Hf in Hdocs.
  case_bool_decide as Hempty.
  - cbn [negb orb] in Hdocs. apply bool_decide_eq_true in Hdocs as [a Ha].
    rewrite bind_run, analyze_all_pdfs_run, Ha. cbn [fst snd].
    rewrite bind_run, update_context_run. cbn [mret M_ret fst snd].
    eexists _, _. split_and!; [..|rewrite !bind_run; cbn [mret M_ret fst snd]; reflexivity|].
    + exact Ht.
    + exact Hl.
    + rewrite !bind_run. cbn [mret M_ret fst snd].
      apply add_agent_result_recorded.
  - cbn [mret M_ret fst snd].
    eexists _, _. split_and!; [..|rewrite !bind_run; cbn [mret M_ret fst snd]; reflexivity|].
    + exact Ht.
    + exact Hl.
    + rewrite !bind_run. cbn [mret M_ret fst snd].
      apply add_agent_result_recorded.
Qed.

Lemma data_intake_tool_records arg sid w :
  extract_session_id E arg = Some sid →
  has_processed (ctxof w sid) "data_intake" = false →
  agent_available E "data_intake" = true →
  bool_decide (is_Some (upload_folder w !! sid)) = true →
  ∃ prompt w2,
    tick w2 = tick w ∧ model_log w2 = model_log w
    ∧ (data_intake_tool E arg w).1
      = str (safe_model_call E "data_intake" prompt w2).1
    ∧ agent_data (ctxof (data_intake_tool E arg w).2 sid) !! "data_intake"
      = Some (mkAgentRecord (str (safe_model_call E "data_intake" prompt w2).1)
                (Some (tick (safe_model_call E "data_intake" prompt w2).2))
                "completed").
Proof.
  intros He Hproc Hav Hdocs. unfold data_intake_tool. rewrite He, bind_run.
  destruct (get_or_create_context_spec sid w) as (Hc & Hd & Hp & Hdoc & Hf & Hfr).
  destruct (get_or_create_context_clock sid w) as (Ht & Hl & _).
  set (c := (get_or_create_context sid w).1) in *.
  set (w1 := (get_or_create_context sid w).2) in *.
  unfold has_processed in *. rewrite Hp, Hproc, Hav.
  rewrite <- Hf in Hdocs. apply bool_decide_eq_true in Hdocs as [a Ha].
  rewrite bind_run, analyze_all_pdfs_run, Ha. cbn [fst snd].
  rewrite bind_run, update_context_run. cbn [mret M_ret fst snd].
  eexists _, _. split_and!; [..|rewrite !bind_run; cbn [mret M_ret fst snd]; reflexivity|].
  - exact Ht.
  - exact Hl.
  - rewrite !bind_run. cbn [mret M_ret fst snd].
    apply add_agent_result_recorded.
Qed.

Lemma summary_generation_tool_records arg sid w :
  extract_session_id E arg = Some sid →
  has_processed (ctxof w sid) "summary_generation" = false →
  agent_available E "summary_generation" = true →
  (7 <=? size (agent_data (ctxof w sid)))%nat = true →
  ∃ prompt w2,
    tick w2 = tick w ∧ model_log w2 = model_log w
    ∧ (summary_generation_tool E arg w).1
      = str (safe_model_call E "summary_generation" prompt w2).1
    ∧ agent_data (ctxof (summary_generation_tool E arg w).2 sid)
        !! "summary_generation"
      = Some (mkAgentRecord
                (str (safe_model_call E "summary_generation" prompt w2).1)
                (Some (tick (safe_model_call E "summary_generation" prompt w2).2))
                "completed").
Proof.
  intros He Hproc Hav Hsz. unfold summary_generation_tool. rewrite He, bind_run.
  destruct (get_or_create_context_spec sid w) as (Hc & Hd & Hp & Hdoc & Hf & Hfr).
  destruct (get_or_create_context_clock sid w) as (Ht & Hl & _).
  set (c := (get_or_create_context sid w).1) in *.
  set (w1 := (get_or_create_context sid w).2) in *.
  unfold has_processed in *. rewrite Hp, Hproc, Hav.
  unfold get_all_insights. rewrite map_size_fmap, Hd.
  apply Nat.leb_le in Hsz.
  destruct (size (agent_data (ctxof w sid)) <? 7)%nat eqn:Hlt;
    [apply Nat.ltb_lt in Hlt; lia|].
  eexists _, w1. split_and!; [exact Ht|exact Hl|..].
  - rewrite !bind_run. cbn [now mret M_ret fst snd]. reflexivity.
  - rewrite !bind_run. cbn [now mret M_ret fst snd].
    rewrite policy_generation_tool_agent_data by done.
    apply add_agent_result_recorded.
Qed.

Lemma tool_function_records t arg sid w :
  extract_session_id E arg = Some sid →
  stage_ready E t sid w = true →
  ∃ prompt w2,
    tick w2 = tick w ∧ model_log w2 = model_log w
    ∧ (tool_function E t arg w).1
      = str (safe_model_call E (stage_name t) prompt w2).1
    ∧ agent_data (ctxof (tool_function E t arg w).2 sid) !! stage_name t
      = Some (mkAgentRecord
                (str (safe_model_call E (stage_name t) prompt w2).1)
                (Some (tick (safe_model_call E (stage_name t) prompt w2).2))
                "completed").
Proof.
  intros He. unfold stage_ready.
  intros [[Hproc%negb_true_iff Hav]%andb_true_iff Hin]%andb_true_iff.
  destruct t; cbn [tool_function stage_name] in *;
    first [ by apply data_intake_tool_records
          | by apply summary_generation_tool_records
          | by apply specialist_tool_records ].
Qed.


(** C4 (credential failure).  In the retry loop an error whose message
    contains "credentials", "unauthorized", "token" or "expired" ends the
    loop at once, with no sleep and no further call, and yields the
    "Authentication Error" text.  A stage that reaches its model call
    records whatever [safe_model_call] handed back as its analysis with
    status [completed]; so a stage whose first attempt fails on credentials
    returns and records the authentication text, [completed]. *)
Theorem credential_failure_degrades :
  (∀ agent prompt max_retries attempt remaining w msg,
     model E agent prompt (tick w) = Raises msg →
     credential_error msg = true →
     safe_model_loop E agent prompt max_retries attempt (S remaining) w
     = (PStr (authentication_error_text msg), after_call agent w))
  ∧ (∀ t session_data sid w,
       extract_session_id E session_data = Some sid →
       stage_ready E t sid w = true →
       ∃ prompt w2,
         tick w2 = tick w ∧ model_log w2 = model_log w
         ∧ (tool_function E t session_data w).1
           = str (safe_model_call E (stage_name t) prompt w2).1
         ∧ agent_data (ctxof (tool_function E t session_data w).2 sid)
             !! stage_name t
           = Some (mkAgentRecord
                     (str (safe_model_call E (stage_name t) prompt w2).1)
                     (Some (tick (safe_model_call E (stage_name t) prompt w2).2))
                     "completed"))
  ∧ (∀ t session_data sid w msg,
       extract_session_id E session_data = Some sid →
       stage_ready E t sid w = true →
       credentials_valid E (tick w) = true →
       (∀ prompt, model E (stage_name t) prompt (S (tick w)) = Raises msg) →
       credential_error msg = true →
       (tool_function E t session_data w).1 = authentication_error_text msg
       ∧ agent_data (ctxof (tool_function E t session_data w).2 sid)
           !! stage_name t
         = Some (mkAgentRecord (authentication_error_text msg)
                   (Some (S (S (tick w)))) "completed")).
Proof.
  split_and!.
  - intros agent prompt mx attempt remaining w msg Hm Hc.
    by rewrite safe_model_loop_unfold, Hm, Hc.
  - intros. by apply tool_function_records.
  - intros t arg sid w msg He Hready Hcred Hm Hc.
    destruct (tool_function_records t arg sid w He Hready)
      as (prompt & w2 & Ht & _ & Hres & Hrec).
    assert (safe_model_call E (stage_name t) prompt w2
            = (PStr (authentication_error_text msg),
               after_call (stage_name t) (step w2).2)) as Hcall.
    { unfold safe_model_call, safe_model_call_with.
      rewrite bind_run, validate_aws_credentials_run, Ht, Hcred. cbn [negb fst snd].
      rewrite safe_model_loop_unfold. cbn [step snd tick]. by rewrite Ht, Hm, Hc. }
    rewrite Hcall in Hres, Hrec. cbn [fst snd str] in *.
    split; [done|]. rewrite Hrec. simpl. by rewrite Ht.
Qed.

(** ** Re-invocation *)

(** C1 (idempotency).  Calling the tool of a stage that already
    has a [completed] result returns that stage's "already completed"
    message, not the stored analysis, and leaves the whole world as it was:
    the stored result is the same and the capability is not called. *)
Theorem stage_idempotent (t : Tool) (session_data sid : string) (w : World)
    (c : UnderwritingContext) (r : AgentRecord) :
  extract_session_id E session_data = Some sid →
  context_registry w !! sid = Some c →
  ctx_inv c →
  agent_data c !! stage_name t = Some r →
  status r = "completed" →
  tool_function E t session_data w = (already_completed t, w).
Proof.
  intros He Hreg (Hdom & _) Hr _.
  assert (stage_name t ∈ processed_agents c) as Hin.
  { rewrite <- Hdom. apply elem_of_dom. eauto. }
  destruct t; cbn [tool_function stage_name already_completed] in *;
    unfold document_verification_tool, medical_risk_assessment_tool,
      financial_analysis_tool, driving_analysis_tool, compliance_analysis_tool,
      lifestyle_behavioral_analysis_tool, specialist_tool, data_intake_tool,
      summary_generation_tool;
    rewrite He, bind_run, get_or_create_context_run, Hreg; cbn [fst snd];
    unfold has_processed; by rewrite bool_decide_eq_true_2.
Qed.



(** ** Policy generation *)

Lemma get_object_run k w :
  get_object E k w =
  (match s3_get_fault E (tick w) with
   | Some msg => GetFailed msg
   | None => match s3_objects w !! k with
             | Some b => GetOk b
             | None => GetNoSuchKey
             end
   end, (step w).2).
Proof.
  unfold get_object. rewrite !bind_run. cbn [step get_world fst snd].
  destruct (s3_get_fault E (tick w)); [done|].
  by destruct (s3_objects _ !! k).
Qed.








(** ** The processing summary *)

Lemma all_names_size : size all_names = 9.
Proof. by vm_compute. Qed.

Lemma ctx_inv_policy_all c :
  ctx_inv c → "policy_generation" ∈ processed_agents c →
  processed_agents c = all_names.
Proof.
  intros (Hdom & Hall & Hsum & Hpol & Hst) Hin.
  apply set_eq. intros x. split; [apply Hall|].
  unfold all_names. intros [Hx|Hx]%elem_of_union.
  - by apply (Hsum (Hpol Hin)).
  - apply elem_of_union in Hx as [Hx%elem_of_singleton|Hx%elem_of_singleton];
      subst x; auto.
Qed.

(** C10 (processing summary).  [save_agent_status] stores [status_data]; its
    processing summary has [total_agents = 8], [completed_agents] the size
    of the processed set, [pending_agents = 8 - completed_agents] and
    [completion_percentage = completed_agents / 8 * 100], unclamped: once
    the policy generation is recorded these are 9, -1 and 112.5. *)
Theorem processing_summary_arithmetic (c : UnderwritingContext) (sid : string)
    (t : nat) :
  let n := Z.of_nat (size (processed_agents c)) in
  (∀ w, session_id c = Some sid → sid ≠ "" → s3_put_ok E (tick w) = true →
        s3_objects (save_agent_status E c w).2 !! status_key sid
        = Some (BodyJson (status_data c sid (tick w))))
  ∧ (∃ p, doc_processing_summary (status_data c sid t) = Some p
          ∧ total_agents p = 8%Z
          ∧ completed_agents p = n
          ∧ pending_agents p = (8 - n)%Z
          ∧ (completion_percentage p == (inject_Z n / 8) * 100)%Q)
  ∧ (ctx_inv c → "policy_generation" ∈ processed_agents c →
     ∃ p, doc_processing_summary (status_data c sid t) = Some p
          ∧ completed_agents p = 9%Z
          ∧ pending_agents p = (-1)%Z
          ∧ (completion_percentage p == 225 # 2)%Q).
Proof.
  intros n. split_and!.
  - intros w Hsid Hne Hput. unfold save_agent_status. rewrite Hsid.
    rewrite bool_decide_eq_false_2 by done.
    rewrite !bind_run. cbn [now fst snd]. unfold put_object.
    rewrite !bind_run. cbn [step get_world fst snd]. rewrite Hput.
    rewrite !bind_run. cbn [set_s3 mret M_ret fst snd s3_objects].
    by rewrite lookup_insert_eq.
  - eexists. split; [reflexivity|]. by cbn.
  - intros Hi Hin. eexists. split; [reflexivity|]. cbn.
    rewrite (ctx_inv_policy_all c Hi Hin), all_names_size. done.
Qed.

(** ** Writers of the status document *)

(** [save_agent_status] reports [completed] exactly when the summary stage
    has a completed result. *)
Lemma status_data_completed_iff c sid t :
  ctx_inv c →
  doc_status (status_data c sid t) = Some "completed"
  ↔ ∃ r, doc_agents (status_data c sid t) !! "summary_generation" = Some r
         ∧ status r = "completed".
Proof.
  intros Hi. unfold status_data. cbn [doc_status doc_agents].
  case_bool_decide as Hin.
  - split; [intros _|done]. by apply ctx_inv_recorded.
  - split; [done|]. intros (r & Hr & _). exfalso. apply Hin.
    destruct Hi as (Hdom & _). rewrite <- Hdom. apply elem_of_dom. eauto.
Qed.

(** C6 (completed iff terminal stage has completed), violated by
    [_process_s3_file].  An archive with one document is processed while the
    credentials are invalid: no stage runs, yet the stored document ends
    with status [completed] and message "All agents completed successfully"
    while its summary stage is still [pending]. *)
Theorem completed_without_terminal_stage :
  let E0 := demo_env (λ _, false) ok_answers None in
  let res := handle_s3_document_processing E0 "trianz-aws-hackathon"
               (demo_sid +:+ "/documents.zip") demo_sid empty_world in
  resp_status res.1 = "success"
  ∧ processed_agents (ctxof res.2 demo_sid) = ∅
  ∧ ∃ d, s3_objects res.2 !! status_key demo_sid = Some (BodyJson d)
         ∧ doc_status d = Some "completed"
         ∧ doc_message d = Some "All agents completed successfully"
         ∧ doc_agents d !! "summary_generation" = Some pending.
Proof.
  intros E0 res. split_and!; [by vm_compute..|].
  eexists. split; [by vm_compute|]. by vm_compute.
Qed.

(** C7 (status load).  With the store answering, the reader of
    the web front returns the default state, eight stages [pending] and
    status [initializing], when the object is missing; on an object that
    does not decode it raises.  In both cases the service front answers
    with an error value from [handle_get_agent_status_from_s3] and with
    [not_found] from [handle_status_request]. *)
Theorem load_default (sid : string) (w : World) :
  s3_get_fault E (tick w) = None →
  (s3_objects w !! status_key sid = None →
   (read_agent_status_from_s3 E sid w).1 = inr (default_initializing_state sid)
   ∧ doc_status (default_initializing_state sid) = Some "initializing"
   ∧ size (doc_agents (default_initializing_state sid)) = 8
   ∧ (∀ t, doc_agents (default_initializing_state sid) !! stage_name t
           = Some pending))
  ∧ (s3_objects w !! status_key sid = Some BodyCorrupt →
     (read_agent_status_from_s3 E sid w).1 = inl "JSONDecodeError")
  ∧ (s3_objects w !! status_key sid = None
     ∨ s3_objects w !! status_key sid = Some BodyCorrupt →
     sid ≠ "" →
     resp_status (handle_get_agent_status_from_s3 E sid w).1 = "error"
     ∧ resp_agent_status (handle_get_agent_status_from_s3 E sid w).1 = None
     ∧ (handle_status_request E sid w).1.2 = Some NotFound).
Proof.
  intros Hfault. split_and!.
  - intros Hobj. unfold read_agent_status_from_s3.
    rewrite bind_run, get_object_run, Hfault, Hobj.
    split_and!; [done|done|by vm_compute|].
    intros t. destruct t; by vm_compute.
  - intros Hobj. unfold read_agent_status_from_s3.
    by rewrite bind_run, get_object_run, Hfault, Hobj.
  - intros Hobj Hne.
    unfold handle_get_agent_status_from_s3, handle_status_request.
    rewrite !bool_decide_eq_false_2 by done.
    rewrite !bind_run, !get_object_run, Hfault.
    by destruct Hobj as [-> | ->].
Qed.

End Proofs.

(** ** The statements at concrete inputs *)

(** [never_halt] on the demo session, whose financial stage raises at every
    attempt. *)
Lemma never_halt_witness :
  extract_session_id E_failing demo_input = Some demo_sid
  ∧ (∀ t : Tool, ∃ r,
       agent_data (ctxof (manual_process_underwriting E_failing demo_input
                            demo_sid demo_world).2 demo_sid) !! stage_name t
       = Some r ∧ status r = "completed")
  ∧ overall_status (ctxof (manual_process_underwriting E_failing demo_input
                             demo_sid demo_world).2 demo_sid)
    = Some "completed".
Proof.
  split; [by vm_compute|].
  apply (never_halt E_failing demo_input demo_sid demo_world).
  - by vm_compute.
  - eexists. by vm_compute.
  - apply (bool_decide_unpack _). by vm_compute.
Defined.

(** In that run the financial stage is recorded with the text the retry
    loop hands back after its third failure. *)
Example degraded_financial_stage :
  get_agent_result
    (ctxof (manual_process_underwriting E_failing demo_input demo_sid
              demo_world).2 demo_sid) "financial"
  = "Model call failed after 3 attempts. Final error: boom".
Proof. by vm_compute. Qed.


(** [credential_failure_degrades] with a capability whose token has
    expired. *)
Lemma credential_failure_degrades_witness :
  safe_model_loop E_expired "financial" demo_prompt 3 0 3 demo_world
  = (PStr (authentication_error_text expired_message),
     after_call "financial" demo_world)
  ∧ (tool_function E_expired data_intake demo_input demo_world).1
    = authentication_error_text expired_message
  ∧ agent_data (ctxof (tool_function E_expired data_intake demo_input
                         demo_world).2 demo_sid) !! "data_intake"
    = Some (mkAgentRecord (authentication_error_text expired_message)
              (Some 2) "completed").
Proof.
  destruct (credential_failure_degrades E_expired) as (H1 & _ & H3).
  split.
  - apply H1; by vm_compute.
  - apply (H3 data_intake demo_input demo_sid demo_world expired_message);
      by vm_compute.
Defined.


(** [load_default] on an empty bucket and on an object that does not
    decode. *)
Lemma load_default_witness :
  (read_agent_status_from_s3 E_ok demo_sid empty_world).1
  = inr (default_initializing_state demo_sid)
  ∧ (read_agent_status_from_s3 E_ok demo_sid corrupt_world).1
    = inl "JSONDecodeError"
  ∧ resp_status (handle_get_agent_status_from_s3 E_ok demo_sid empty_world).1
    = "error".
Proof.
  destruct (load_default E_ok demo_sid empty_world) as (H1 & _ & H3);
    [by vm_compute|].
  destruct (load_default E_ok demo_sid corrupt_world) as (_ & H2 & _);
    [by vm_compute|].
  split_and!.
  - apply H1. by vm_compute.
  - apply H2. by vm_compute.
  - apply H3; [left; by vm_compute|by vm_compute].
Defined.

(** Stored data that does not decode makes the reader raise, and missing
    data makes the service front answer with an error value: neither gives
    the default state. *)
Lemma load_default_counterexample :
  (read_agent_status_from_s3 E_ok demo_sid corrupt_world).1
  ≠ inr (default_initializing_state demo_sid)
  ∧ (handle_get_agent_status_from_s3 E_ok demo_sid empty_world).1
    = error_response "Agent status not found in S3: NoSuchKey"
  ∧ (handle_status_request E_ok demo_sid empty_world).1.2 = Some NotFound.
Proof. split_and!. all: by vm_compute. Qed.




(** [processing_summary_arithmetic] on the context a complete run leaves. *)
Lemma processing_summary_arithmetic_witness :
  ∃ p, doc_processing_summary
         (status_data (ctxof completed_world demo_sid) demo_sid 0) = Some p
       ∧ completed_agents p = 9%Z
       ∧ pending_agents p = (-1)%Z
       ∧ (completion_percentage p == 225 # 2)%Q.
Proof.
  destruct (processing_summary_arithmetic E_ok (ctxof completed_world demo_sid)
              demo_sid 0) as (_ & _ & H3).
  apply H3.
  - apply (bool_decide_unpack _). by vm_compute.
  - apply (bool_decide_unpack _). by vm_compute.
Defined.

(** [stage_idempotent]: the intake tool called a second time. *)
Lemma stage_idempotent_witness :
  extract_session_id E_ok demo_input = Some demo_sid
  ∧ tool_function E_ok data_intake demo_input after_intake
    = (already_completed data_intake, after_intake).
Proof.
  split; [by vm_compute|].
  eapply (stage_idempotent E_ok data_intake demo_input demo_sid after_intake
           (ctxof after_intake demo_sid)).
  - by vm_compute.
  - by vm_compute.
  - apply (bool_decide_unpack _). by vm_compute.
  - by vm_compute.
  - by vm_compute.
Defined.

(** The second call of the intake tool does not return the stored
    analysis. *)
Lemma cached_analysis_counterexample :
  ∃ r, agent_data (ctxof after_intake demo_sid) !! "data_intake" = Some r
       ∧ status r = "completed"
       ∧ (tool_function E_ok data_intake demo_input after_intake).1 ≠ analysis r.
Proof.
  eexists. split; [by vm_compute|]. split; [by vm_compute|]. by vm_compute.
Qed.

(** * Further properties of the pipeline and its fronts *)

Section More.
Context (E : Env).

(** ** Running again *)

Lemma tool_function_processed t arg sid w c :
  extract_session_id E arg = Some sid →
  context_registry w !! sid = Some c →
  stage_name t ∈ processed_agents c →
  tool_function E t arg w = (already_completed t, w).
Proof.
  intros He Hreg Hin.
  destruct t; cbn [tool_function stage_name already_completed] in *;
    unfold document_verification_tool, medical_risk_assessment_tool,
      financial_analysis_tool, driving_analysis_tool, compliance_analysis_tool,
      lifestyle_behavioral_analysis_tool, specialist_tool, data_intake_tool,
      summary_generation_tool;
    rewrite He, bind_run, get_or_create_context_run, Hreg; cbn [fst snd];
    unfold has_processed; by rewrite bool_decide_eq_true_2.
Qed.

Lemma run_agents_processed l arg sid w c :
  extract_session_id E arg = Some sid →
  context_registry w !! sid = Some c →
  (∀ t, t ∈ l → stage_name t ∈ processed_agents c) →
  (run_agents E l arg w).2 = w
  ∧ (summary_generation ∈ l →
     (run_agents E l arg w).1 = Some "Summary generation already completed").
Proof.
  intros He Hreg. induction l as [|t l IH]; intros Hall; cbn [run_agents].
  - split; [done|]. by intros ?%elem_of_nil.
  - rewrite bind_run, (tool_function_processed t arg sid w c) by
      (try done; apply Hall; left).
    cbn [fst snd].
    destruct IH as [IH1 IH2]; [intros; apply Hall; by right|].
    case_bool_decide as Hs.
    + apply (proj1 (stage_name_summary t)) in Hs. subst t. done.
    + split; [done|]. intros [Heq|Hin]%elem_of_cons; [by subst t|auto].
Qed.

(** X1 (second run). A sequential run over a session whose eight stages are
    all processed changes nothing at all and answers with the summary tool's
    "already completed" message. *)
Theorem second_run_changes_nothing (underwriting_input sid : string)
    (w : World) (c : UnderwritingContext) :
  extract_session_id E underwriting_input = Some sid →
  context_registry w !! sid = Some c →
  specialists ∪ {["summary_generation"]} ⊆ processed_agents c →
  manual_process_underwriting E underwriting_input sid w
  = ("Summary generation already completed", w).
Proof.
  intros He Hreg Hall. unfold manual_process_underwriting. rewrite bind_run.
  destruct (run_agents_processed agents underwriting_input sid w c He Hreg)
    as [Hw Hr].
  { intros t _. apply Hall, stage_name_canonical. }
  rewrite Hw, Hr; [done|]. unfold agents. set_solver.
Qed.

(** ** Reset *)

(** X2 (reset). [reset_context_for_session] leaves the session with a
    context that has no result, no processed mark and no document text,
    whatever was there, and touches neither another session nor the bucket. *)
Theorem reset_clears_one_session (sid : string) (w : World) :
  let w' := (reset_context_for_session sid w).2 in
  blank (ctxof w' sid)
  ∧ session_id (ctxof w' sid) = Some sid
  ∧ (∀ t, has_processed (ctxof w' sid) (stage_name t) = false)
  ∧ (∀ s, s ≠ sid → context_registry w' !! s = context_registry w !! s)
  ∧ s3_objects w' = s3_objects w
  ∧ upload_folder w' = upload_folder w.
Proof.
  intros w'.
  assert (context_registry w'
          = <[sid := set_session_id new_context sid (tick w)]> (context_registry w))
    as Hreg by done.
  rewrite (ctxof_insert_eq _ _ _ _ Hreg).
  split_and!; try done.
  intros s Hs. rewrite Hreg. by rewrite lookup_insert_ne.
Qed.

End More.

(** ** World relations that the operations keep

    For a reflexive and transitive [R]: an operation built from primitives
    that keep [R] keeps [R]. *)
Section Keeps.
Context (E : Env) (R : World → World → Prop).
Context (R_refl : ∀ w, R w w) (R_trans : ∀ w1 w2 w3, R w1 w2 → R w2 w3 → R w1 w3).
Context (step_keeps : keeps R step).
Context (get_or_create_context_keeps : ∀ s, keeps R (get_or_create_context s)).
Context (reset_context_for_session_keeps :
  ∀ s, keeps R (reset_context_for_session s)).
Context (set_document_content_keeps :
  ∀ s d, keeps R (update_context s (λ c, set_document_content c d))).
Context (P : string → Prop).
Context (add_agent_result_keeps :
  ∀ s n r, P n → keeps R (add_agent_result E s n r)).
Context (put_object_keeps : ∀ k d, keeps R (put_object E k d)).
Context (sleep_keeps : ∀ n, keeps R (sleep n)).
Context (log_model_call_keeps : ∀ a, keeps R (log_model_call a)).
Context (log_rendered_keeps : ∀ f, keeps R (log_rendered f)).
Context (log_uploaded_keeps : ∀ k, keeps R (log_uploaded k)).

Lemma keeps_ret {A} (x : A) : keeps R (mret x).
Proof. intros w. apply R_refl. Qed.

Lemma keeps_bind {A B} (m : M A) (f : A → M B) :
  keeps R m → (∀ x, keeps R (f x)) → keeps R (m ≫= f).
Proof.
  intros Hm Hf w. rewrite bind_run. eapply R_trans; [apply Hm|apply Hf].
Qed.

Lemma get_world_keeps : keeps R get_world.
Proof. intros w. apply R_refl. Qed.

Lemma now_keeps : keeps R now.
Proof. intros w. apply R_refl. Qed.

Ltac go :=
  repeat first
    [ apply keeps_ret
    | apply get_world_keeps
    | apply now_keeps
    | assumption
    | match goal with H : ∀ _, keeps _ _ |- _ => apply H end
    | match goal with H : ∀ _ _, keeps _ _ |- _ => apply H end
    | apply keeps_bind; [|intros ?]
    | case_match ].


Lemma get_object_keeps k : keeps R (get_object E k).
Proof using R_refl R_trans step_keeps. unfold get_object. go. Qed.

Lemma save_agent_status_keeps c : keeps R (save_agent_status E c).
Proof using R_refl R_trans put_object_keeps. unfold save_agent_status. go. Qed.

Lemma analyze_all_pdfs_keeps s : keeps R (analyze_all_pdfs s).
Proof using R_refl R_trans. unfold analyze_all_pdfs. go. Qed.




Lemma generate_health_insurance_policy_keeps s :
  keeps R (generate_health_insurance_policy E s).
Proof using R_refl R_trans step_keeps put_object_keeps log_rendered_keeps
  log_uploaded_keeps.
  unfold generate_health_insurance_policy.
  apply keeps_bind; [apply get_object_keeps|intros got]. go.
Qed.

Lemma policy_generation_tool_keeps arg :
  P "policy_generation" → keeps R (policy_generation_tool E arg).
Proof using R_refl R_trans step_keeps put_object_keeps log_rendered_keeps
  log_uploaded_keeps get_or_create_context_keeps add_agent_result_keeps.
  intros HP. unfold policy_generation_tool.
  case_match; [|apply keeps_ret].
  apply keeps_bind; [apply get_or_create_context_keeps|intros c].
  case_match; [apply keeps_ret|].
  apply keeps_bind; [apply generate_health_insurance_policy_keeps|intros r].
  repeat first
    [ apply keeps_ret | by apply add_agent_result_keeps
    | apply keeps_bind; [|intros ?] | case_match ].
Qed.






Context (P_all : ∀ n, P n).




Lemma update_processing_status_keeps sid st msg fs :
  keeps R (update_processing_status E sid st msg fs).
Proof using R_refl R_trans put_object_keeps step_keeps.
  unfold update_processing_status.
  apply keeps_bind; [apply get_object_keeps|intros got]. go.
Qed.

End Keeps.

(** ** Relations that do not look at the registry *)
Section KeepsRegistry.
Context (E : Env) (R : World → World → Prop).
Context (R_refl : ∀ w, R w w) (R_trans : ∀ w1 w2 w3, R w1 w2 → R w2 w3 → R w1 w3).
Context (set_registry_keeps : ∀ r, keeps R (set_registry r)).
Context (put_object_keeps : ∀ k d, keeps R (put_object E k d)).

Lemma get_or_create_context_keeps_any s : keeps R (get_or_create_context s).
Proof using R_refl set_registry_keeps.
  intros w. rewrite get_or_create_context_run.
  destruct (context_registry w !! s); [apply R_refl|apply set_registry_keeps].
Qed.

Lemma update_context_keeps_any s f : keeps R (update_context s f).
Proof using set_registry_keeps. intros w. apply set_registry_keeps. Qed.

Lemma add_agent_result_keeps_any s n r : keeps R (add_agent_result E s n r).
Proof using All.
  unfold add_agent_result.
  apply keeps_bind; [done|apply now_keeps; done|intros t].
  apply keeps_bind; [done|apply update_context_keeps_any|intros c].
  by apply save_agent_status_keeps.
Qed.

End KeepsRegistry.

(** ** Budgets *)
Section Budget.
Context (E : Env) (cost : World → nat) (k : nat).
Context (cost_step : ∀ w, cost (step w).2 = cost w).
Context (cost_set_registry : ∀ r w, cost (set_registry r w).2 = cost w).
Context (cost_set_s3 : ∀ o w, cost (set_s3 o w).2 = cost w).
Context (cost_log_rendered : ∀ f w, cost (log_rendered f w).2 = cost w).
Context (cost_log_uploaded : ∀ f w, cost (log_uploaded f w).2 = cost w).
Context (safe_model_call_spends : ∀ a p, spends cost k (safe_model_call E a p)).

Lemma spends_ret {A} (x : A) n : spends cost n (mret x).
Proof. intros w. cbn. lia. Qed.

Lemma spends_bind {A B} n1 n2 (m : M A) (f : A → M B) :
  spends cost n1 m → (∀ x, spends cost n2 (f x)) → spends cost (n1 + n2) (m ≫= f).
Proof.
  intros Hm Hf w. rewrite bind_run.
  specialize (Hm w). specialize (Hf (m w).1 (m w).2). lia.
Qed.

Lemma spends_keeps {A} (m : M A) n :
  keeps (same_cost cost) m → spends cost n m.
Proof. intros Hm w. rewrite (Hm w). lia. Qed.

Lemma same_refl w : same_cost cost w w.
Proof. done. Qed.

Lemma same_trans w1 w2 w3 :
  same_cost cost w1 w2 → same_cost cost w2 w3 → same_cost cost w1 w3.
Proof. unfold same_cost. congruence. Qed.

Lemma same_step : keeps (same_cost cost) step.
Proof using cost_step. intros w. apply cost_step. Qed.

Lemma same_put_object key d : keeps (same_cost cost) (put_object E key d).
Proof using cost_step cost_set_s3.
  intros w. unfold put_object, same_cost. rewrite !bind_run.
  change (get_world (step w).2) with ((step w).2, (step w).2). cbn [fst snd].
  case_match; [|apply cost_step].
  rewrite bind_run. change (cost (set_s3 (<[key:=BodyJson d]> (s3_objects (step w).2)) (step w).2).2 = cost w).
  by rewrite cost_set_s3, cost_step.
Qed.

Lemma same_get_or_create_context s :
  keeps (same_cost cost) (get_or_create_context s).
Proof using cost_set_registry.
  apply get_or_create_context_keeps_any; [apply same_refl|].
  intros r w. apply cost_set_registry.
Qed.

Lemma same_set_document_content s d :
  keeps (same_cost cost) (update_context s (λ c, set_document_content c d)).
Proof using cost_set_registry. intros w. apply cost_set_registry. Qed.

Lemma same_add_agent_result s n r :
  keeps (same_cost cost) (add_agent_result E s n r).
Proof using cost_set_registry cost_step cost_set_s3.
  apply add_agent_result_keeps_any;
    [apply same_refl|apply same_trans| |apply same_put_object].
  intros r' w. apply cost_set_registry.
Qed.

Lemma same_policy_generation_tool arg :
  keeps (same_cost cost) (policy_generation_tool E arg).
Proof using cost_step cost_set_registry cost_set_s3 cost_log_rendered
  cost_log_uploaded.
  apply (policy_generation_tool_keeps E (same_cost cost) same_refl same_trans
           same_step
           same_get_or_create_context (λ _, True)); try done.
  - intros. apply same_add_agent_result.
  - apply same_put_object.
Qed.

Lemma specialist_tool_spends name ac na q arg :
  spends cost k (specialist_tool E name ac na q arg).
Proof using All.
  unfold specialist_tool. case_match; [|apply spends_ret].
  apply (spends_bind 0 k); [apply spends_keeps, same_get_or_create_context|].
  intros c. case_match; [apply spends_ret|].
  apply (spends_bind 0 k).
  { apply spends_keeps. case_match; [|apply (keeps_ret (same_cost cost) same_refl)].
    apply keeps_bind;
      [apply same_trans
      |apply (analyze_all_pdfs_keeps (same_cost cost) same_refl same_trans)|].
    intros [err|a]; [apply (keeps_ret (same_cost cost) same_refl)|].
    apply keeps_bind; [apply same_trans|apply same_set_document_content|].
    intros; apply (keeps_ret (same_cost cost) same_refl). }
  intros [err|c']; [apply spends_ret|].
  replace k with (k + 0)%nat by lia.
  apply (spends_bind k 0).
  { case_match; [|apply spends_ret]. replace k with (k + 0)%nat by lia.
    apply (spends_bind k 0); [apply safe_model_call_spends|].
    intros; apply spends_ret. }
  intros r. apply (spends_bind 0 0);
    [apply spends_keeps, same_add_agent_result|intros; apply spends_ret].
Qed.

Lemma data_intake_tool_spends arg : spends cost k (data_intake_tool E arg).
Proof using All.
  unfold data_intake_tool. case_match; [|apply spends_ret].
  apply (spends_bind 0 k); [apply spends_keeps, same_get_or_create_context|].
  intros c. case_match; [apply spends_ret|].
  apply (spends_bind 0 k);
    [apply spends_keeps;
     apply (analyze_all_pdfs_keeps (same_cost cost) same_refl same_trans)|].
  intros [err|a]; [apply spends_ret|].
  apply (spends_bind 0 k); [apply spends_keeps, same_set_document_content|].
  intros _. replace k with (k + 0)%nat by lia.
  apply (spends_bind k 0).
  { case_match; [|apply spends_ret]. replace k with (k + 0)%nat by lia.
    apply (spends_bind k 0); [apply safe_model_call_spends|].
    intros; apply spends_ret. }
  intros r. apply (spends_bind 0 0);
    [apply spends_keeps, same_add_agent_result|intros; apply spends_ret].
Qed.

Lemma summary_generation_tool_spends arg :
  spends cost k (summary_generation_tool E arg).
Proof using All.
  unfold summary_generation_tool. case_match; [|apply spends_ret].
  apply (spends_bind 0 k); [apply spends_keeps, same_get_or_create_context|].
  intros c. case_match; [apply spends_ret|]. case_match; [apply spends_ret|].
  replace k with (k + 0)%nat by lia.
  apply (spends_bind k 0).
  { case_match.
    - apply (spends_bind 0 k);
        [apply spends_keeps; apply (now_keeps (same_cost cost) same_refl)|].
      intros t. replace k with (k + 0)%nat by lia.
      apply (spends_bind k 0); [apply safe_model_call_spends|].
      intros; apply spends_ret.
    - apply (spends_bind 0 k);
        [apply spends_keeps; apply (now_keeps (same_cost cost) same_refl)|].
      intros; apply spends_ret. }
  intros r. apply (spends_bind 0 0);
    [apply spends_keeps, same_add_agent_result|intros _].
  apply (spends_bind 0 0);
    [apply spends_keeps, same_policy_generation_tool|intros; apply spends_ret].
Qed.

Lemma tool_function_spends t arg : spends cost k (tool_function E t arg).
Proof using All.
  destruct t; cbn [tool_function];
    first [ apply data_intake_tool_spends | apply summary_generation_tool_spends
          | apply specialist_tool_spends ].
Qed.

Lemma run_agents_spends l arg :
  spends cost (length l * k) (run_agents E l arg).
Proof using All.
  induction l as [|t l IH]; cbn [run_agents length]; [apply spends_ret|].
  replace (S (length l) * k)%nat with (k + length l * k)%nat by lia.
  apply spends_bind; [apply tool_function_spends|intros r].
  case_match; [apply spends_ret|apply IH].
Qed.

Lemma manual_process_underwriting_spends arg sid :
  spends cost (8 * k) (manual_process_underwriting E arg sid).
Proof using All.
  unfold manual_process_underwriting.
  replace (8 * k)%nat with (8 * k + 0)%nat by lia.
  apply spends_bind; [apply (run_agents_spends agents)|].
  intros [r|]; [apply spends_ret|].
  apply (spends_bind 0 0); [apply spends_keeps, same_get_or_create_context|].
  intros c. apply (spends_bind 0 0);
    [apply spends_keeps; apply (now_keeps (same_cost cost) same_refl)
    |intros; apply spends_ret].
Qed.

End Budget.

Section Budgets.
Context (E : Env).

(** ** Calls and sleeps *)

Lemma safe_model_call_spends_calls a p :
  spends calls_made 3 (safe_model_call E a p).
Proof. intros w. apply safe_model_call_calls. Qed.

Lemma safe_model_loop_sleeps a p attempt remaining w :
  attempt + remaining = 3 →
  (seconds_slept (safe_model_loop E a p 3 attempt remaining w).2
   ≤ seconds_slept w + sleep_allowance attempt)%nat.
Proof.
  revert attempt w. induction remaining as [|remaining IH]; intros attempt w Hs.
  { cbn. lia. }
  rewrite safe_model_loop_unfold.
  assert (∀ n, (n + sleep_allowance (attempt + 1) ≤ sleep_allowance attempt)%nat →
    (seconds_slept (safe_model_loop E a p 3 (attempt + 1) remaining
                      (after_sleep n (after_call a w))).2
     ≤ seconds_slept w + sleep_allowance attempt)%nat) as Hrec.
  { intros n Hn. etrans; [apply IH; lia|].
    change (seconds_slept (after_sleep n (after_call a w)))
      with (n + seconds_slept w)%nat. lia. }
  assert (attempt = 0 ∨ attempt = 1 ∨ attempt = 2) as Ha by lia.
  repeat case_match;
    try (cbn [snd]; change (seconds_slept (after_call a w)) with (seconds_slept w);
         lia);
    apply Hrec; destruct Ha as [-> | [-> | ->] ]; cbn in *; try lia; done.
Qed.

Lemma safe_model_call_spends_sleep a p :
  spends seconds_slept 30 (safe_model_call E a p).
Proof.
  intros w. unfold safe_model_call, safe_model_call_with.
  rewrite bind_run, validate_aws_credentials_run. cbn [fst snd].
  change (seconds_slept w) with (seconds_slept (step w).2).
  case_match; [cbn [mret M_ret snd]; lia|].
  etrans; [by apply safe_model_loop_sleeps|]. done.
Qed.

(** X3 (call budget). A stage tool calls its agent at most three times, and
    a sequential run at most twenty-four times, whatever the agents answer. *)
Theorem model_call_budget :
  (∀ t session_data w,
     (calls_made (tool_function E t session_data w).2 ≤ calls_made w + 3)%nat)
  ∧ (∀ underwriting_input sid w,
       (calls_made (manual_process_underwriting E underwriting_input sid w).2
        ≤ calls_made w + 24)%nat).
Proof.
  split.
  - intros t arg w. by apply (tool_function_spends E calls_made 3);
      try apply safe_model_call_spends_calls.
  - intros arg sid w.
    by apply (manual_process_underwriting_spends E calls_made 3);
      try apply safe_model_call_spends_calls.
Qed.

(** X4 (sleep budget). [safe_model_call] sleeps at most 5 + 10 + 15 seconds
    in all; so a stage tool sleeps at most 30 seconds and a sequential run
    at most 240. *)
Theorem sleep_budget :
  (∀ agent prompt w,
     (seconds_slept (safe_model_call E agent prompt w).2
      ≤ seconds_slept w + 30)%nat)
  ∧ (∀ t session_data w,
       (seconds_slept (tool_function E t session_data w).2
        ≤ seconds_slept w + 30)%nat)
  ∧ (∀ underwriting_input sid w,
       (seconds_slept (manual_process_underwriting E underwriting_input sid w).2
        ≤ seconds_slept w + 240)%nat).
Proof.
  split_and!.
  - intros a p w. apply safe_model_call_spends_sleep.
  - intros t arg w. by apply (tool_function_spends E seconds_slept 30);
      try apply safe_model_call_spends_sleep.
  - intros arg sid w.
    by apply (manual_process_underwriting_spends E seconds_slept 30);
      try apply safe_model_call_spends_sleep.
Qed.

(** ** What [safe_model_call] hands back *)



(** ** The invariant of the registry *)

Lemma frames_registry_inv w w' :
  (∀ s, frame s w w') → keeps_registry_inv w w'.
Proof. intros Hf Hinv s. by apply (Hf s). Qed.

Lemma same_registry_inv w w' : same_registry w w' → keeps_registry_inv w w'.
Proof.
  intros Hr Hinv s. unfold ctxof. rewrite Hr. apply Hinv.
Qed.

Lemma keeps_registry_inv_refl w : keeps_registry_inv w w.
Proof. by intros ?. Qed.

Lemma keeps_registry_inv_trans w1 w2 w3 :
  keeps_registry_inv w1 w2 → keeps_registry_inv w2 w3 → keeps_registry_inv w1 w3.
Proof. unfold keeps_registry_inv. auto. Qed.

Lemma same_registry_refl w : same_registry w w.
Proof. done. Qed.

Lemma same_registry_trans w1 w2 w3 :
  same_registry w1 w2 → same_registry w2 w3 → same_registry w1 w3.
Proof. unfold same_registry. congruence. Qed.

Lemma same_registry_step : keeps same_registry step.
Proof. done. Qed.

Lemma same_registry_put_object k d : keeps same_registry (put_object E k d).
Proof.
  intros w. unfold put_object, same_registry. rewrite !bind_run.
  change (get_world (step w).2) with ((step w).2, (step w).2). cbn [fst snd].
  by case_match.
Qed.

Lemma reset_registry_inv sid :
  keeps keeps_registry_inv (reset_context_for_session sid).
Proof.
  intros w Hinv s.
  assert (context_registry (reset_context_for_session sid w).2
          = <[sid := set_session_id new_context sid (tick w)]> (context_registry w))
    as Hreg by done.
  destruct (decide (sid = s)) as [->|Hne].
  - rewrite (ctxof_insert_eq _ _ _ _ Hreg). apply ctx_inv_set_session_id, ctx_inv_new.
  - rewrite (ctxof_insert_ne _ _ _ _ _ Hreg Hne). apply Hinv.
Qed.

Lemma manual_registry_inv arg sid :
  keeps keeps_registry_inv (manual_process_underwriting E arg sid).
Proof.
  intros w. rewrite manual_process_underwriting_world.
  apply frames_registry_inv. intros s. apply run_agents_frame.
Qed.

(** X6 (registry invariant). [process_underwriting] keeps the invariant of
    the registry, whatever the credentials, the planner, the model and the
    bucket do. *)
Theorem orchestrator_keeps_registry_inv (underwriting_input sid : string)
    (w : World) :
  registry_inv w →
  registry_inv (process_underwriting E underwriting_input sid w).2.
Proof.
  revert w.
  change (keeps keeps_registry_inv (process_underwriting E underwriting_input sid)).
  pose proof keeps_registry_inv_refl as Hrefl.
  pose proof keeps_registry_inv_trans as Htrans.
  unfold process_underwriting.
  apply keeps_bind; [done| |intros v].
  { intros w. by apply same_registry_inv. }
  case_match.
  { apply keeps_bind; [done|by apply now_keeps|intros; by apply keeps_ret]. }
  apply keeps_bind; [done|apply reset_registry_inv|intros c].
  case_match; [|apply manual_registry_inv].
  apply keeps_bind; [done| |intros t].
  { intros w. by apply same_registry_inv. }
  apply keeps_bind; [done| |intros r].
  { intros w. apply frames_registry_inv. intros s. apply run_plan_frame. }
  destruct r; [apply manual_registry_inv|by apply keeps_ret].
Qed.

(** X7 (planner). Whatever tools the planner calls, in whatever order and
    with whatever arguments: every registered context still satisfies the
    invariant, no processed mark is removed and no session folder changes. *)
Theorem planner_is_harmless (p : Plan) (w : World) :
  let w' := (run_plan E p w).2 in
  (registry_inv w → registry_inv w')
  ∧ (∀ s, processed_agents (ctxof w s) ⊆ processed_agents (ctxof w' s))
  ∧ upload_folder w' = upload_folder w.
Proof.
  intros w'. split_and!.
  - apply frames_registry_inv. intros s. apply run_plan_frame.
  - intros s. apply (run_plan_frame E p w s).
  - apply (run_plan_frame E p w "").
Qed.

(** ** A bucket that refuses every write *)

Section NoWrites.
Hypothesis no_put : ∀ t, s3_put_ok E t = false.






End NoWrites.


End Budgets.

Section Documents.
Context (E : Env).

(** ** Writing the status document *)

Lemma put_object_stored k d w :
  s3_put_ok E (tick w) = true →
  s3_objects (put_object E k d w).2 = <[k := BodyJson d]> (s3_objects w)
  ∧ tick (put_object E k d w).2 = S (tick w).
Proof.
  intros Hput. unfold put_object. rewrite !bind_run.
  change (get_world (step w).2) with ((step w).2, (step w).2). cbn [fst snd].
  change (step w).1 with (tick w). by rewrite Hput.
Qed.

Lemma add_agent_result_stored s n r w :
  session_id (ctxof w s) = Some s → s ≠ "" →
  s3_put_ok E (tick w) = true →
  s3_objects (add_agent_result E s n r w).2
  = <[status_key s :=
        BodyJson (status_data (record_result (ctxof w s) n r (tick w)) s (tick w))]>
      (s3_objects w)
  ∧ tick (add_agent_result E s n r w).2 = S (tick w).
Proof.
  intros Hs Hne Hput. unfold add_agent_result.
  rewrite bind_run. change (now w) with (tick w, w). cbn [fst snd].
  rewrite bind_run, update_context_run. cbn [fst snd].
  unfold save_agent_status. cbn [record_result session_id]. rewrite Hs.
  rewrite bool_decide_eq_false_2 by done.
  rewrite !bind_run. cbn [now fst snd mret M_ret].
  match goal with |- context [put_object E ?k ?d0 ?w0] =>
    destruct (put_object_stored k d0 w0) as [H1 H2]; [done|]; by rewrite H1, H2
  end.
Qed.

(** ** Policy documents *)



Lemma generate_success_stored sid w :
  s3_put_ok E (S (S (S (S (tick w))))) = true →
  pr_status (generate_health_insurance_policy E sid w).1 = "success" →
  ∃ d, s3_objects (generate_health_insurance_policy E sid w).2 !! status_key sid
       = Some (BodyJson d)
       ∧ (pd_status <$> doc_policy_generated d) = Some "completed".
Proof.
  intros Hput. unfold generate_health_insurance_policy.
  rewrite bind_run, get_object_run. cbn [fst snd].
  destruct (s3_get_fault E (tick w)) as [msg|]; [done|].
  destruct (s3_objects w !! status_key sid) as [[d|]|]; try done.
  case_match; [done|]. case_match; [done|]. case_match; [done|].
  rewrite bind_run. cbn [step fst snd tick].
  case_match; [|done].
  rewrite bind_run. cbn [now fst snd tick].
  rewrite bind_run. cbn [log_rendered fst snd].
  rewrite bind_run. cbn [step fst snd tick].
  case_match; [done|].
  rewrite bind_run. cbn [step fst snd tick].
  rewrite bind_run.
  case_match; cbn [log_uploaded mret M_ret fst snd];
    rewrite bind_run; cbn [now fst snd]; rewrite bind_run; intros _;
    match goal with |- context [put_object E ?k ?d0 ?w0] =>
      destruct (put_object_stored k d0 w0) as [Hst _]; [done|]; eexists; split;
        [cbn [mret M_ret fst snd]; rewrite Hst; apply lookup_insert_eq|done]
    end.
Qed.

(** X10 (policy descriptor). After a successful policy generation the tool
    records its result, and the status document that goes with the record
    replaces the one in which the generator had just stored the policy
    descriptor: the stored document has no descriptor any more, and the web
    front's [policy_status] answers that no policy was generated. *)
Theorem policy_descriptor_overwritten (session_data sid : string) (w : World)
    (c : UnderwritingContext) :
  extract_session_id E session_data = Some sid →
  context_registry w !! sid = Some c →
  session_id c = Some sid → sid ≠ "" →
  has_processed c "summary_generation" = true →
  (∀ t, s3_put_ok E t = true) →
  pr_status (generate_health_insurance_policy E sid w).1 = "success" →
  let generated := (generate_health_insurance_policy E sid w).2 in
  let res := policy_generation_tool E session_data w in
  (∃ d0, s3_objects generated !! status_key sid = Some (BodyJson d0)
         ∧ (pd_status <$> doc_policy_generated d0) = Some "completed")
  ∧ ∃ d, s3_objects res.2 !! status_key sid = Some (BodyJson d)
         ∧ doc_policy_generated d = None
         ∧ is_Some (doc_agents d !! "policy_generation")
         ∧ (s3_get_fault E (tick res.2) = None →
            (policy_status E sid res.2).1 = Some false).
Proof.
  intros He Hreg Hsid Hne Hproc Hput Hok generated res.
  split; [by apply generate_success_stored|].
  assert (ctxof generated sid = c) as Hc.
  { unfold ctxof.
    pose proof (generate_health_insurance_policy_core E sid w) as Hcore.
    apply (f_equal fst) in Hcore. cbn in Hcore.
    fold generated in Hcore. by rewrite Hcore, Hreg. }
  assert (res.2 = (add_agent_result E sid "policy_generation"
                     (json_dumps E (generate_health_insurance_policy E sid w).1)
                     generated).2) as Hres.
  { subst res. unfold policy_generation_tool.
    rewrite He, bind_run, get_or_create_context_run, Hreg. cbn [fst snd].
    rewrite Hproc. cbn [negb]. rewrite bind_run.
    rewrite (bool_decide_eq_true_2 _ Hok). by rewrite bind_run. }
  destruct (add_agent_result_stored sid "policy_generation"
              (json_dumps E (generate_health_insurance_policy E sid w).1)
              generated) as [Hst Htick]; [by rewrite Hc|done|done|].
  rewrite <- Hres in Hst, Htick.
  eexists. split_and!.
  - rewrite Hst. apply lookup_insert_eq.
  - done.
  - cbn [status_data doc_agents record_result agent_data].
    rewrite lookup_insert_eq. by eexists.
  - intros Hfault. unfold policy_status.
    rewrite bind_run, get_object_run, Hfault, Hst, lookup_insert_eq. done.
Qed.

(** ** What the fronts read *)

Lemma all_status_completed d :
  map_Forall (λ _ r, status r = "completed") (doc_agents d) →
  all_status d "completed" = true.
Proof.
  intros Hall. unfold all_status. apply forallb_forall.
  intros r [[n r'] [-> Hin]]%list_elem_of_In%list_elem_of_fmap.
  apply elem_of_map_to_list in Hin. apply bool_decide_eq_true_2.
  by apply (Hall n).
Qed.

(** X11 (web status). The web front's [get_status] answers "completed" for
    every document [save_agent_status] wrote once one result is recorded,
    also while the document itself says "in_progress": the document lists
    only stages that have a result, and those all have status completed. *)
Theorem web_status_completed_early (sid : string) (w : World)
    (c : UnderwritingContext) (t : nat) :
  s3_get_fault E (tick w) = None →
  s3_objects w !! status_key sid = Some (BodyJson (status_data c sid t)) →
  ctx_inv c →
  agent_data c ≠ ∅ →
  (get_status E sid w).1.1 = "completed"
  ∧ ("summary_generation" ∉ processed_agents c →
     doc_status (status_data c sid t) = Some "in_progress").
Proof.
  intros Hfault Hst Hinv Hne. split.
  - unfold get_status, read_agent_status_from_s3.
    rewrite !bind_run, get_object_run, Hfault, Hst. cbn [fst snd mret M_ret].
    unfold derived_status. cbn [status_data doc_agents doc_status].
    rewrite bool_decide_eq_false_2 by done.
    rewrite (all_status_completed (status_data c sid t)); [done|].
    apply Hinv.
  - intros Hs. cbn. by rewrite bool_decide_eq_false_2.
Qed.

(** X12 (status round trip). A result written by [add_agent_result] is what
    the fronts read back: the stored agents are the context's, with the new
    record among them. *)
Theorem status_round_trip (sid agent_name result : string) (w : World) :
  session_id (ctxof w sid) = Some sid → sid ≠ "" →
  s3_put_ok E (tick w) = true →
  let w' := (add_agent_result E sid agent_name result w).2 in
  s3_get_fault E (tick w') = None →
  ∃ d, resp_agent_status (handle_get_agent_status_from_s3 E sid w').1 = Some d
       ∧ (read_agent_status_from_s3 E sid w').1 = inr d
       ∧ (handle_status_request E sid w').1.2 = Some (StoredStatus d)
       ∧ (handle_summary_request E sid w').1
         = inr (mkSummaryResponse d
                  (get_agent_result (ctxof w' sid) "summary_generation")
                  (doc_agents d))
       ∧ doc_agents d = agent_data (ctxof w' sid)
       ∧ doc_agents d !! agent_name
         = Some (mkAgentRecord result (Some (tick w)) "completed").
Proof.
  intros Hs Hne Hput w' Hfault.
  destruct (add_agent_result_stored sid agent_name result w Hs Hne Hput)
    as [Hst _].
  fold w' in Hst.
  assert (s3_objects w' !! status_key sid
          = Some (BodyJson (status_data (record_result (ctxof w sid) agent_name
                                           result (tick w)) sid (tick w))))
    as Hlook by (rewrite Hst; apply lookup_insert_eq).
  assert (ctxof w' sid = record_result (ctxof w sid) agent_name result (tick w))
    as Hc.
  { pose proof (add_agent_result_core E sid agent_name result w) as Hcore.
    apply (f_equal fst) in Hcore. cbn [core fst] in Hcore.
    apply (ctxof_insert_eq w w' sid _ Hcore). }
  eexists. split_and!.
  - unfold handle_get_agent_status_from_s3.
    rewrite bool_decide_eq_false_2 by done.
    by rewrite bind_run, get_object_run, Hfault, Hlook.
  - unfold read_agent_status_from_s3.
    by rewrite bind_run, get_object_run, Hfault, Hlook.
  - unfold handle_status_request.
    rewrite bool_decide_eq_false_2 by done.
    by rewrite bind_run, get_object_run, Hfault, Hlook.
  - unfold handle_summary_request.
    rewrite bool_decide_eq_false_2 by done.
    rewrite bind_run, get_object_run, Hfault, Hlook. by rewrite Hc.
  - by rewrite Hc.
  - cbn [status_data doc_agents record_result agent_data].
    apply lookup_insert_eq.
Qed.

Lemma update_processing_status_stored sid st msg fs w :
  s3_put_ok E (S (tick w)) = true →
  ∃ d, s3_objects (update_processing_status E sid st msg fs w).2 !! status_key sid
       = Some (BodyJson d)
       ∧ doc_status d = Some st.
Proof.
  intros Hput. unfold update_processing_status.
  rewrite bind_run, get_object_run. cbn [fst snd].
  rewrite bind_run. cbn [now fst snd].
  rewrite bind_run. cbn [now fst snd].
  rewrite bind_run.
  match goal with |- context [put_object E ?k ?d0 ?w0] =>
    destruct (put_object_stored k d0 w0) as [Hst _]; [done|]
  end.
  eexists. split; [cbn [mret M_ret snd]; rewrite Hst; apply lookup_insert_eq|].
  done.
Qed.

(** X13 (status update). [update_processing_status] on a readable document
    changes its status, message and time stamp (and its final summary when
    one is given) and keeps the rest; when the document cannot be read at
    that moment it is replaced by one without any agent. *)
Theorem status_update_keeps_results
    (sid new_status message final_summary : string) (w : World) :
  s3_put_ok E (S (tick w)) = true →
  ∃ d', s3_objects (update_processing_status E sid new_status message
                      final_summary w).2 !! status_key sid
        = Some (BodyJson d')
        ∧ doc_status d' = Some new_status
        ∧ doc_message d' = Some message
        ∧ match s3_get_fault E (tick w), s3_objects w !! status_key sid with
          | None, Some (BodyJson d) =>
              doc_agents d' = doc_agents d
              ∧ doc_processing_summary d' = doc_processing_summary d
              ∧ doc_policy_generated d' = doc_policy_generated d
              ∧ doc_created_at d' = doc_created_at d
              ∧ doc_final_summary d'
                = (if bool_decide (final_summary = "")
                   then doc_final_summary d else Some final_summary)
          | _, _ => doc_agents d' = ∅
          end.
Proof.
  intros Hput. unfold update_processing_status.
  rewrite bind_run, get_object_run. cbn [fst snd].
  rewrite bind_run. cbn [now fst snd].
  rewrite bind_run. cbn [now fst snd].
  rewrite bind_run.
  match goal with |- context [put_object E ?k ?d0 ?w0] =>
    destruct (put_object_stored k d0 w0) as [Hst _]; [done|]
  end.
  eexists. split; [cbn [mret M_ret snd]; rewrite Hst; apply lookup_insert_eq|].
  split_and!; [done..|].
  destruct (s3_get_fault E (tick w)); [done|].
  by destruct (s3_objects w !! status_key sid) as [[d|]|].
Qed.

(** ** An archive that cannot be used *)

Lemma same_model_log_refl w : same_model_log w w.
Proof. done. Qed.

Lemma same_model_log_trans w1 w2 w3 :
  same_model_log w1 w2 → same_model_log w2 w3 → same_model_log w1 w3.
Proof. unfold same_model_log. congruence. Qed.

Lemma same_model_log_put_object k d : keeps same_model_log (put_object E k d).
Proof.
  intros w. unfold put_object, same_model_log. rewrite !bind_run.
  change (get_world (step w).2) with ((step w).2, (step w).2). cbn [fst snd].
  by case_match.
Qed.

Lemma update_processing_status_quiet sid st msg fs w :
  let w' := (update_processing_status E sid st msg fs w).2 in
  context_registry w' = context_registry w
  ∧ upload_folder w' = upload_folder w
  ∧ model_log w' = model_log w.
Proof.
  intros w'. split_and!.
  - apply (update_processing_status_keeps E same_registry same_registry_refl
             same_registry_trans same_registry_step (same_registry_put_object E)).
  - pose proof (update_processing_status_keeps E (λ w w', core w' = core w)
                  (λ _, eq_refl) ltac:(intros; congruence) ltac:(done)
                  (λ k d w0, put_object_core E k d w0) sid st msg fs w) as H.
    by apply (f_equal snd) in H.
  - apply (update_processing_status_keeps E same_model_log same_model_log_refl
             same_model_log_trans); [done|apply same_model_log_put_object].
Qed.

(** X14 (unusable archive). When the archive cannot be downloaded, is empty
    or too large, cannot be extracted or holds no PDF, [_process_s3_file]
    answers with an error and runs no stage: the registry is untouched and
    no agent is called. Only in the first three cases does it write status
    "failed"; after a failed extraction or with no PDF the bucket is left as
    it was. *)
Theorem unusable_archive_runs_no_stage (s3_bucket s3_key sid : string)
    (w : World) :
  archive_failed (archive E s3_bucket s3_key (tick w)) = true →
  let res := _process_s3_file E s3_bucket s3_key sid w in
  resp_status res.1 = "error"
  ∧ context_registry res.2 = context_registry w
  ∧ model_log res.2 = model_log w
  ∧ if download_failed (archive E s3_bucket s3_key (tick w))
    then s3_put_ok E (S (S (tick w))) = true →
         ∃ d, s3_objects res.2 !! status_key sid = Some (BodyJson d)
              ∧ doc_status d = Some "failed"
    else s3_objects res.2 = s3_objects w.
Proof.
  intros Hfail res. subst res. unfold _process_s3_file.
  rewrite bind_run. change (step w).1 with (tick w).
  rewrite bind_run. change (get_world (step w).2) with ((step w).2, (step w).2).
  cbn [fst snd].
  assert (∀ st msg fs,
    s3_put_ok E (S (S (tick w))) = true →
    ∃ d, s3_objects (update_processing_status E sid st msg fs (step w).2).2
           !! status_key sid = Some (BodyJson d) ∧ doc_status d = Some st) as Hupd.
  { intros st msg fs Hput.
    by apply (update_processing_status_stored sid st msg fs (step w).2). }
  assert (∀ st msg fs,
    context_registry (update_processing_status E sid st msg fs (step w).2).2
    = context_registry w
    ∧ model_log (update_processing_status E sid st msg fs (step w).2).2
      = model_log w) as Hq.
  { intros st msg fs.
    by destruct (update_processing_status_quiet sid st msg fs (step w).2)
      as (? & _ & ?). }
  destruct (archive E s3_bucket s3_key (tick w)) as [msg| | |msg|folder];
    cbn [download_failed archive_failed] in *.
  1-3: rewrite bind_run; cbn [mret M_ret fst snd];
    split_and!; [done|apply Hq|apply Hq|apply Hupd].
  - by rewrite bind_run.
  - rewrite bind_run. by rewrite Hfail.
Qed.

(** ** [get_session_status] *)

Lemma specialists_summary_size : size (specialists ∪ {["summary_generation"]}) = 8.
Proof. by vm_compute. Qed.

(** X15 (session status). For a context the tools built,
    [get_session_status] says "completed" exactly when the summary stage is
    processed and no policy result is recorded; once the policy tool has
    recorded its result there are nine processed names and the answer is
    "in_progress" again. *)
Theorem session_status_counts_policy (sid : string) (w : World)
    (c : UnderwritingContext) :
  context_registry w !! sid = Some c →
  ctx_inv c →
  ∃ st, (get_session_status sid w).1 = inr st
        ∧ (ss_status st = "completed"
           ↔ "summary_generation" ∈ processed_agents c
             ∧ "policy_generation" ∉ processed_agents c)
        ∧ ("policy_generation" ∈ processed_agents c →
           ss_status st = "in_progress"
           ∧ size (ss_processed_agents st) = 9).
Proof.
  intros Hreg Hinv. unfold get_session_status.
  rewrite bind_run. cbn [get_world fst snd]. rewrite Hreg.
  eexists. split; [done|]. cbn [ss_status ss_processed_agents].
  destruct Hinv as (Hdom & Hsub & Hsum & Hpol & Hall).
  assert (ctx_inv c) as Hinv by done.
  split.
  - case_bool_decide as Hsize; split; try done.
    + intros _. split.
      * destruct (decide ("summary_generation" ∈ processed_agents c)); [done|].
        assert (processed_agents c ⊆ specialists) as Hle.
        { unfold all_names in Hsub. set_solver. }
        apply subseteq_size in Hle. rewrite specialists_size in Hle. lia.
      * intros Hp. rewrite (ctx_inv_policy_all c Hinv Hp), all_names_size in Hsize.
        lia.
    + intros [Hs Hp]. exfalso. apply Hsize.
      assert (processed_agents c = specialists ∪ {["summary_generation"]}) as ->.
      { unfold all_names in Hsub. specialize (Hsum Hs). set_solver. }
      apply specialists_summary_size.
  - intros Hp. rewrite (ctx_inv_policy_all c Hinv Hp), all_names_size.
    by rewrite bool_decide_eq_false_2 by lia.
Qed.

End Documents.

(** ** Matching *)

Lemma match_here_app p s m r :
  match_here p s = Some m → match_here p (s +:+ r) = Some m.
Proof.
  revert s m. induction p as [|k p IH]; intros s m; [done|].
  destruct s as [|c s]; [done|].
  change (String c s +:+ r) with (String c (s +:+ r)). cbn [match_here].
  destruct (class_match k c); [|done].
  destruct (match_here p s) as [m'|] eqn:Hm; [|done].
  intros [= <-]. by rewrite (IH s m' Hm).
Qed.

Lemma match_here_idem p s m : match_here p s = Some m → match_here p m = Some m.
Proof.
  revert s m. induction p as [|k p IH]; intros s m.
  { by intros [= <-]. }
  destruct s as [|c s]; [done|]. cbn.
  destruct (class_match k c) eqn:Hk; [|done].
  destruct (match_here p s) as [m'|] eqn:Hm; [|done].
  intros [= <-]. cbn. by rewrite Hk, (IH s m' Hm).
Qed.

Lemma match_here_prefix p s m : match_here p s = Some m → String.prefix m s = true.
Proof.
  revert s m. induction p as [|k p IH]; intros s m.
  { intros [= <-]. by destruct s. }
  destruct s as [|c s]; [done|]. cbn.
  destruct (class_match k c) eqn:Hk; [|done].
  destruct (match_here p s) as [m'|] eqn:Hm; [|done].
  intros [= <-]. cbn. destruct (ascii_dec c c); [|done]. by apply IH.
Qed.

Lemma match_here_of_prefix p sid s :
  match_here p sid = Some sid → String.prefix sid s = true →
  match_here p s = Some sid.
Proof.
  revert sid s. induction p as [|k p IH]; intros sid s.
  { by intros [= <-]. }
  destruct sid as [|c sid]; [done|]. cbn.
  destruct (class_match k c) eqn:Hk; [|done].
  destruct (match_here p sid) as [m'|] eqn:Hm; [|done].
  intros [= ->]. destruct s as [|c' s]; [done|]. cbn.
  destruct (ascii_dec c c') as [<-|]; [|done].
  intros Hpre. by rewrite Hk, (IH _ _ Hm Hpre).
Qed.

Lemma match_here_length p s m :
  match_here p s = Some m → String.length m = length p.
Proof.
  revert s m. induction p as [|k p IH]; intros s m.
  { by intros [= <-]. }
  destruct s as [|c s]; [done|]. cbn.
  destruct (class_match k c); [|done].
  destruct (match_here p s) as [m'|] eqn:Hm; [|done].
  intros [= <-]. cbn. by rewrite (IH s m' Hm).
Qed.

Lemma match_here_avoids p s m c :
  Forall (λ k, class_match k c = false) p →
  match_here p s = Some m → contains (String c "") m = false.
Proof.
  intros Hp. revert s m. induction Hp as [|k p Hk Hp IH]; intros s m.
  { by intros [= <-]. }
  destruct s as [|c' s]; [done|]. cbn [match_here].
  destruct (class_match k c') eqn:Hk'; [|done].
  destruct (match_here p s) as [m'|] eqn:Hm; [|done].
  intros [= <-]. cbn. rewrite (IH s m' Hm).
  destruct (ascii_dec c c') as [<-|]; [congruence|]. by destruct m'.
Qed.

Lemma re_search_here p s m : match_here p s = Some m → re_search p s = Some m.
Proof. intros Hm. destruct s; cbn; by rewrite Hm. Qed.

Lemma re_search_skip p c s :
  match_here p (String c s) = None → re_search p (String c s) = re_search p s.
Proof. intros Hm. cbn [re_search]. by rewrite Hm. Qed.

Lemma re_search_match p s m :
  re_search p s = Some m →
  match_here p m = Some m ∧ contains m s = true.
Proof.
  induction s as [|c s IH]; cbn [re_search].
  - destruct (match_here p "") as [m'|] eqn:Hm; [|done].
    intros [= <-]. split; [by eapply match_here_idem|].
    cbn [contains]. by rewrite (match_here_prefix _ _ _ Hm).
  - destruct (match_here p (String c s)) as [m'|] eqn:Hm.
    + intros [= <-]. split; [by eapply match_here_idem|].
      cbn [contains]. by rewrite (match_here_prefix _ _ _ Hm).
    + intros [? Hc]%IH. split; [done|]. cbn [contains]. rewrite Hc.
      apply orb_true_r.
Qed.

Lemma contains_re_search p sid s :
  match_here p sid = Some sid → contains sid s = true →
  is_Some (re_search p s).
Proof.
  intros Hsid. induction s as [|c s IH]; cbn [contains re_search].
  - rewrite orb_false_r. intros Hpre.
    by rewrite (match_here_of_prefix _ _ _ Hsid Hpre).
  - intros [Hpre|Hc]%orb_true_iff.
    + by rewrite (match_here_of_prefix _ _ _ Hsid Hpre).
    + destruct (match_here p (String c s)); [done|]. by apply IH.
Qed.

Lemma contains_char_cons c c' s :
  contains (String c "") (String c' s)
  = bool_decide (c = c') || contains (String c "") s.
Proof.
  cbn [contains String.prefix]. f_equal.
  destruct (ascii_dec c c'); case_bool_decide; try done. by destruct s.
Qed.

Lemma first_part_no_slash s : contains "/" (first_part s).1 = false.
Proof.
  induction s as [|c s IH]; [done|]. cbn [first_part].
  case_bool_decide as Hc; [done|].
  destruct (first_part s) as [p more]. cbn [fst] in *.
  rewrite contains_char_cons, IH. by rewrite bool_decide_eq_false_2.
Qed.

Lemma session_pattern_no_slash :
  Forall (λ k, class_match k "/" = false) session_pattern.
Proof. by repeat constructor. Qed.

Lemma match_here_lits l p s m :
  match_here (lits l ++ p) s = Some m → String.prefix l m = true.
Proof.
  revert s m. induction l as [|c l IH]; intros s m; cbn [lits app].
  { intros _. by destruct m. }
  destruct s as [|c' s]; [done|]. cbn [match_here class_match].
  case_bool_decide as Hc; [subst c'|done].
  destruct (match_here (lits l ++ p) s) as [m'|] eqn:Hm; [|done].
  intros [= <-]. cbn [String.prefix]. destruct (ascii_dec c c); [|done].
  by apply (IH s).
Qed.

Lemma canonical_shape m s :
  match_here session_pattern s = Some m →
  String.prefix "session_" m = true ∧ String.length m = 36.
Proof.
  intros Hm. split; [|apply match_here_length in Hm; exact Hm].
  by apply match_here_lits in Hm.
Qed.

Section SessionIds.
Context (E : Env).

(** X16 (canonical id). A canonical session id is read back from every text
    the pipeline puts it in: after "Session ID: ", from the text
    [process_underwriting] gives to its stages, and from an S3 key that
    starts with it. *)
Theorem canonical_id_found (sid : string) :
  canonical sid →
  (∀ rest, extract_session_id E ("Session ID: " +:+ sid +:+ rest) = Some sid)
  ∧ (∀ underwriting_input,
       contains sid underwriting_input = false →
       extract_session_id E (with_session_id underwriting_input sid) = Some sid)
  ∧ (∀ underwriting_input,
       is_Some (extract_session_id E (with_session_id underwriting_input sid)))
  ∧ (∀ rest, extract_session_from_s3_key (sid +:+ "/" +:+ rest) = Some sid).
Proof.
  intros Hsid.
  assert (∀ rest, extract_session_id E ("Session ID: " +:+ sid +:+ rest)
                  = Some sid) as H1.
  { intros rest. unfold extract_session_id.
    rewrite bool_decide_eq_false_2 by done.
    change ("Session ID: " +:+ sid +:+ rest)
      with (String "S" (String "e" (String "s" (String "s" (String "i"
             (String "o" (String "n" (String " " (String "I" (String "D"
             (String ":" (String " " (sid +:+ rest))))))))))))).
    do 12 (rewrite re_search_skip by by vm_compute).
    by rewrite (re_search_here _ _ sid) by by apply match_here_app. }
  assert (∀ input, contains sid input = false →
                   extract_session_id E (with_session_id input sid) = Some sid)
    as H2.
  { intros input Hc. unfold with_session_id. rewrite Hc. cbn [negb]. apply H1. }
  split_and!; [done..| |].
  - intros input. destruct (contains sid input) eqn:Hc; [|by rewrite H2].
    unfold with_session_id. rewrite Hc. cbn [negb]. unfold extract_session_id.
    destruct (contains_re_search _ _ _ Hsid Hc) as [m Hm]. rewrite Hm.
    case_bool_decide as He; [|done].
    subst input. destruct sid; [done|]. by cbn in Hc.
  - intros rest. unfold extract_session_from_s3_key.
    by rewrite (re_search_here _ _ sid) by by apply match_here_app.
Qed.

(** X17 (S3 key). Whatever [extract_session_from_s3_key] returns starts with
    "session_" and has no "/" in it, and on a key that holds a canonical id
    it is the id [extract_session_id] finds in the same text. *)
Theorem s3_key_session (s3_key sid : string) :
  extract_session_from_s3_key s3_key = Some sid →
  String.prefix "session_" sid = true
  ∧ contains "/" sid = false
  ∧ (is_Some (re_search session_pattern s3_key) →
     canonical sid ∧ extract_session_id E s3_key = Some sid).
Proof.
  unfold extract_session_from_s3_key, extract_session_id.
  destruct (re_search session_pattern s3_key) as [m|] eqn:Hm.
  - intros [= ->]. apply re_search_match in Hm as [Hm Hc].
    split_and!.
    + by apply (canonical_shape sid sid).
    + apply (match_here_avoids _ _ _ _ session_pattern_no_slash Hm).
    + intros _. split; [done|]. case_bool_decide as He; [|done].
      subst s3_key. apply canonical_shape in Hm as [_ Hl].
      destruct sid; [done|]. by cbn in Hc.
  - pose proof (first_part_no_slash s3_key) as Hns.
    destruct (first_part s3_key) as [head more]. cbn [fst] in Hns.
    destruct more; cbn [andb]; [|done].
    destruct (String.prefix "session_" head) eqn:Hp; [|done].
    intros [= <-]. split_and!; [done..|]. by intros [? ?].
Qed.

End SessionIds.

(** ** Document text *)

Lemma length_append s1 s2 :
  String.length (s1 +:+ s2) = String.length s1 + String.length s2.
Proof.
  induction s1 as [|c s1 IH]; [done|].
  change (String c s1 +:+ s2) with (String c (s1 +:+ s2)).
  cbn [String.length]. by rewrite IH.
Qed.

Lemma append_empty s1 s2 : s1 +:+ s2 = "" → s1 = "" ∧ s2 = "".
Proof. by destruct s1. Qed.

Lemma page_texts_empty i pages :
  page_texts i pages = "" ↔ Forall (λ page, page = PageText "") pages.
Proof.
  revert i. induction pages as [|page pages IH]; intros i; cbn [page_texts].
  { split; [constructor|done]. }
  rewrite Forall_cons. rewrite <- (IH (i + 1)). split.
  - intros [Hp Hr]%append_empty. split; [|done].
    destruct page as [t| |]; try done.
    case_bool_decide; [by subst|done].
  - intros [-> ->]. done.
Qed.

(** X18 (PDF text). The text of a PDF is empty exactly when every page
    extracts to the empty text; a page on which extraction raises still
    leaves its marker. A PDF without text, and one that does not open, is
    not valid. *)
Theorem pdf_text_empty (pages : list PageExtract) :
  (full_text (analyze_pdf pages) = ""
   ↔ Forall (λ page, page = PageText "") pages)
  ∧ (full_text (analyze_pdf pages) = "" → is_valid (analyze_pdf pages) = false)
  ∧ total_pages (analyze_pdf pages) = length pages
  ∧ is_valid (analyze_file None) = false.
Proof.
  split_and!; [apply page_texts_empty| |done..].
  cbn [analyze_pdf full_text is_valid]. by intros ->.
Qed.

(** X19 (combined content). The combined content of a folder has, for every
    file, a header of 21 characters plus the file name, followed by the
    file's text; a file that does not open contributes its header only; with
    at least one file the content is not empty. *)
Theorem combined_content_length
    (files : list (string * option (list PageExtract))) :
  String.length (combined_content (analyze_folder files))
  = sum_list (document_chars <$> files)
  ∧ total_documents (analyze_folder files) = length files
  ∧ (files ≠ [] → combined_content (analyze_folder files) ≠ "").
Proof.
  split_and!; [|done|].
  - cbn [analyze_folder combined_content].
    induction files as [|[filename f] files IH]; [done|].
    cbn [combine_pdfs fmap list_fmap sum_list sum_list_with].
    rewrite !length_append, IH. unfold document_chars. cbn [fst snd].
    destruct f as [pages|]; cbn; lia.
  - destruct files as [|[filename f] files]; [done|]. intros _. done.
Qed.

(** ** Time stamps *)



Section Stamps.
Context (E : Env) (sid : string) (N : string → Prop).









Lemma writes_reset_context_for_session s :
  keeps (writes sid N) (reset_context_for_session s).
Proof.
  intros w. split; [done|]. intros n r Hr. left.
  assert (context_registry (reset_context_for_session s w).2
          = <[s := set_session_id new_context s (tick w)]> (context_registry w))
    as Hreg by done.
  destruct (decide (s = sid)) as [->|Hne].
  - by rewrite (ctxof_insert_eq _ _ _ _ Hreg) in Hr.
  - by rewrite (ctxof_insert_ne _ _ _ _ _ Hreg Hne) in Hr.
Qed.






End Stamps.

Section Order.
Context (E : Env).





End Order.

(** ** Session ids of the web front *)

Lemma append_assoc s1 s2 s3 : (s1 +:+ s2) +:+ s3 = s1 +:+ s2 +:+ s3.
Proof.
  induction s1 as [|c s1 IH]; [done|].
  change (String c s1 +:+ s2) with (String c (s1 +:+ s2)).
  change (String c (s1 +:+ s2) +:+ s3) with (String c ((s1 +:+ s2) +:+ s3)).
  by rewrite IH.
Qed.

Lemma match_here_app_pattern p1 p2 s1 s2 :
  match_here p1 s1 = Some s1 → match_here p2 s2 = Some s2 →
  match_here (p1 ++ p2) (s1 +:+ s2) = Some (s1 +:+ s2).
Proof.
  revert s1. induction p1 as [|k p1 IH]; intros s1.
  { by intros [= <-]. }
  destruct s1 as [|c s1]; [done|].
  change (String c s1 +:+ s2) with (String c (s1 +:+ s2)).
  cbn [app match_here].
  destruct (class_match k c); [|done].
  destruct (match_here p1 s1) as [m|] eqn:Hm; [|done].
  intros [= ->] H2. by rewrite (IH _ Hm H2).
Qed.

Lemma match_here_lits_self l : match_here (lits l) l = Some l.
Proof.
  induction l as [|c l IH]; [done|]. cbn [lits match_here class_match].
  by rewrite bool_decide_eq_true_2, IH.
Qed.

Lemma years_match y :
  (1000 ≤ y)%nat → (y < 10 * 1000)%nat →
  match_here (replicate 4 CDigit) (pretty y) = Some (pretty y).
Proof.
  intros Hlo Hhi.
  assert (forallb (λ y, full_match (replicate 4 CDigit) (pretty y))
            (seq 1000 (9 * 1000)) = true) as Hall by by vm_compute.
  rewrite forallb_forall in Hall.
  apply (bool_decide_eq_true_1 _), Hall, in_seq. lia.
Qed.

Lemma two_digits_match n :
  (n < 100)%nat →
  match_here (replicate 2 CDigit) (two_digits n) = Some (two_digits n).
Proof.
  intros Hn.
  assert (forallb (λ n, full_match (replicate 2 CDigit) (two_digits n))
            (seq 0 100) = true) as Hall by by vm_compute.
  rewrite forallb_forall in Hall.
  apply (bool_decide_eq_true_1 _), Hall, in_seq. lia.
Qed.

Lemma hex_digit_is_hex n : is_hex (hex_digit n) = true.
Proof.
  unfold hex_digit.
  assert (N.to_nat (n mod 16) < 16)%nat as Hlt.
  { pose proof (N.mod_upper_bound n 16). lia. }
  destruct (N.to_nat (n mod 16)) as [|k]; [done|].
  do 15 (destruct k as [|k]; [done|]). lia.
Qed.

Lemma uuid_head_match u :
  match_here (replicate 8 CHex) (uuid_head u) = Some (uuid_head u).
Proof.
  unfold uuid_head. cbn [replicate match_here class_match].
  by rewrite !hex_digit_is_hex.
Qed.

(** X22 (generated ids). The session ids of the web front are canonical, for
    every clock reading with a year of four digits and every UUID; so the
    service front reads the id back from the key under which the web front
    uploads the archive, and the pipeline reads it back from its input. *)
Theorem generated_ids_are_canonical (E : Env) (now : DateTime) (uuid4 : N) :
  (1000 ≤ dt_year now)%nat → (dt_year now < 10 * 1000)%nat →
  (dt_month now < 100)%nat → (dt_day now < 100)%nat →
  (dt_hour now < 100)%nat → (dt_minute now < 100)%nat →
  (dt_second now < 100)%nat →
  let sid := generate_session_id now uuid4 in
  canonical sid
  ∧ (∀ filename,
       extract_session_from_s3_key (sid +:+ "/" +:+ filename) = Some sid)
  ∧ (∀ rest, extract_session_id E ("Session ID: " +:+ sid +:+ rest) = Some sid).
Proof.
  intros Hy1 Hy2 Hm Hd Hh Hmi Hs sid.
  assert (canonical sid) as Hc.
  { unfold canonical, sid, generate_session_id, strftime, session_pattern.
    rewrite !append_assoc.
    repeat (apply match_here_app_pattern;
            [first [ apply match_here_lits_self | by apply years_match
                   | by apply two_digits_match ]|]).
    apply uuid_head_match. }
  split_and!; [done| |].
  - intros filename. unfold extract_session_from_s3_key.
    by rewrite (re_search_here _ _ sid) by by apply match_here_app.
  - intros rest. unfold extract_session_id.
    rewrite bool_decide_eq_false_2 by done.
    change ("Session ID: " +:+ sid +:+ rest)
      with (String "S" (String "e" (String "s" (String "s" (String "i"
             (String "o" (String "n" (String " " (String "I" (String "D"
             (String ":" (String " " (sid +:+ rest))))))))))))).
    do 12 (rewrite re_search_skip by by vm_compute).
    by rewrite (re_search_here _ _ sid) by by apply match_here_app.
Qed.

(** ** The further statements at concrete inputs *)

Lemma registry_inv_alt w :
  map_Forall (λ _ c, ctx_inv c) (context_registry w) → registry_inv w.
Proof.
  intros Hall s. unfold ctxof.
  destruct (context_registry w !! s) as [c|] eqn:Hc; [by apply (Hall s)|].
  apply ctx_inv_new.
Qed.

Lemma second_run_changes_nothing_witness :
  extract_session_id E_ok demo_input = Some demo_sid
  ∧ manual_process_underwriting E_ok demo_input demo_sid completed_world
    = ("Summary generation already completed", completed_world).
Proof.
  split; [by vm_compute|].
  apply (second_run_changes_nothing E_ok demo_input demo_sid completed_world
           (ctxof completed_world demo_sid)).
  - by vm_compute.
  - by vm_compute.
  - apply (bool_decide_unpack _). by vm_compute.
Defined.

Lemma reset_clears_one_session_witness :
  blank (ctxof (reset_context_for_session demo_sid completed_world).2 demo_sid)
  ∧ s3_objects (reset_context_for_session demo_sid completed_world).2
    = s3_objects completed_world.
Proof.
  pose proof (reset_clears_one_session demo_sid completed_world) as H.
  split; apply H.
Defined.

Lemma planner_is_harmless_witness :
  registry_inv crashed_world
  ∧ upload_folder crashed_world = upload_folder planner_start.
Proof.
  pose proof (planner_is_harmless E_planned
                (crashing_planner
                   (with_session_id "Process the application" demo_sid) 2)
                planner_start) as (H1 & _ & H2).
  split; [|exact H2]. apply H1, registry_inv_alt.
  apply (bool_decide_unpack _). by vm_compute.
Defined.

Lemma orchestrator_keeps_registry_inv_witness :
  registry_inv
    (process_underwriting E_failing "Process the application" demo_sid
       completed_world).2.
Proof.
  apply orchestrator_keeps_registry_inv, registry_inv_alt.
  apply (bool_decide_unpack _). by vm_compute.
Defined.




Lemma policy_descriptor_overwritten_witness :
  let res := policy_generation_tool E_ok demo_input summarized_world in
  res.1 = "Policy generated successfully: policy_generated_session_2025-01-15_10-30-00_deadbeef_3.pdf"
  ∧ ∃ d, s3_objects res.2 !! status_key demo_sid = Some (BodyJson d)
         ∧ doc_policy_generated d = None
         ∧ is_Some (doc_agents d !! "policy_generation")
         ∧ (s3_get_fault E_ok (tick res.2) = None →
            (policy_status E_ok demo_sid res.2).1 = Some false).
Proof.
  split; [by vm_compute|].
  apply (policy_descriptor_overwritten E_ok demo_input demo_sid summarized_world
           (ctxof summarized_world demo_sid)).
  - by vm_compute.
  - by vm_compute.
  - by vm_compute.
  - done.
  - by vm_compute.
  - done.
  - by vm_compute.
Defined.

Lemma web_status_completed_early_witness :
  (get_status E_ok demo_sid after_intake).1.1 = "completed"
  ∧ doc_status (status_data (ctxof after_intake demo_sid) demo_sid 2)
    = Some "in_progress".
Proof.
  destruct (web_status_completed_early E_ok demo_sid after_intake
              (ctxof after_intake demo_sid) 2) as [H1 H2].
  - done.
  - by vm_compute.
  - apply (bool_decide_unpack _). by vm_compute.
  - apply (bool_decide_unpack _). by vm_compute.
  - split; [exact H1|]. apply H2. apply (bool_decide_unpack _). by vm_compute.
Defined.

Lemma status_round_trip_witness :
  let w' := (add_agent_result E_ok demo_sid "data_intake" "Intake done"
               (get_or_create_context demo_sid demo_world).2).2 in
  ∃ d, resp_agent_status (handle_get_agent_status_from_s3 E_ok demo_sid w').1
       = Some d
       ∧ (read_agent_status_from_s3 E_ok demo_sid w').1 = inr d
       ∧ (handle_status_request E_ok demo_sid w').1.2 = Some (StoredStatus d)
       ∧ (handle_summary_request E_ok demo_sid w').1
         = inr (mkSummaryResponse d
                  (get_agent_result (ctxof w' demo_sid) "summary_generation")
                  (doc_agents d))
       ∧ doc_agents d = agent_data (ctxof w' demo_sid)
       ∧ doc_agents d !! "data_intake"
         = Some (mkAgentRecord "Intake done" (Some 0) "completed").
Proof.
  apply (status_round_trip E_ok demo_sid "data_intake" "Intake done"
           (get_or_create_context demo_sid demo_world).2); by vm_compute.
Defined.

Lemma status_update_keeps_results_witness :
  ∃ d', s3_objects (update_processing_status E_ok demo_sid "completed"
                      "All agents completed successfully" "" after_intake).2
          !! status_key demo_sid = Some (BodyJson d')
        ∧ doc_status d' = Some "completed"
        ∧ doc_agents d' = agent_data (ctxof after_intake demo_sid).
Proof.
  destruct (status_update_keeps_results E_ok demo_sid "completed"
              "All agents completed successfully" "" after_intake)
    as (d' & H1 & H2 & _ & H3); [done|].
  exists d'. split_and!; [exact H1|exact H2|].
  assert (s3_objects after_intake !! status_key demo_sid
          = Some (BodyJson (status_data (ctxof after_intake demo_sid) demo_sid 2)))
    as Hst by by vm_compute.
  rewrite Hst in H3. apply H3.
Defined.

Lemma unusable_archive_runs_no_stage_witness :
  let res := _process_s3_file E_too_large "trianz-aws-hackathon"
               (demo_sid +:+ "/documents.zip") demo_sid demo_world in
  resp_status res.1 = "error"
  ∧ context_registry res.2 = ∅
  ∧ model_log res.2 = [].
Proof.
  destruct (unusable_archive_runs_no_stage E_too_large "trianz-aws-hackathon"
              (demo_sid +:+ "/documents.zip") demo_sid demo_world)
    as (H1 & H2 & H3 & _); [done|].
  by split_and!.
Defined.

Lemma session_status_counts_policy_witness :
  ∃ st, (get_session_status demo_sid completed_world).1 = inr st
        ∧ ss_status st = "in_progress"
        ∧ size (ss_processed_agents st) = 9.
Proof.
  destruct (session_status_counts_policy demo_sid completed_world
              (ctxof completed_world demo_sid)) as (st & H1 & _ & H2).
  - by vm_compute.
  - apply (bool_decide_unpack _). by vm_compute.
  - exists st. split; [exact H1|]. apply H2.
    apply (bool_decide_unpack _). by vm_compute.
Defined.

Lemma canonical_id_found_witness :
  canonical demo_sid
  ∧ extract_session_id E_ok
      (with_session_id "Process the application" demo_sid) = Some demo_sid
  ∧ extract_session_from_s3_key (demo_sid +:+ "/documents.zip") = Some demo_sid.
Proof.
  assert (canonical demo_sid) as Hc by by vm_compute.
  destruct (canonical_id_found E_ok demo_sid Hc) as (_ & H2 & _ & H4).
  split_and!; [exact Hc|apply H2; by vm_compute|apply H4].
Defined.

Lemma s3_key_session_witness :
  String.prefix "session_" "session_upload" = true
  ∧ contains "/" "session_upload" = false.
Proof.
  destruct (s3_key_session E_ok "session_upload/documents.zip" "session_upload")
    as (H1 & H2 & _); [by vm_compute|].
  by split.
Defined.

Lemma pdf_text_empty_witness :
  full_text (analyze_pdf [PageText ""; PageText ""]) = ""
  ∧ is_valid (analyze_pdf [PageText ""; PageText ""]) = false.
Proof.
  destruct (pdf_text_empty [PageText ""; PageText ""]) as (H1 & H2 & _).
  assert (full_text (analyze_pdf [PageText ""; PageText ""]) = "") as H.
  { apply H1. by repeat constructor. }
  split; [exact H|by apply H2].
Defined.

Lemma combined_content_length_witness :
  String.length (combined_content (analyze_folder demo_files)) = 100
  ∧ combined_content (analyze_folder demo_files) ≠ "".
Proof.
  destruct (combined_content_length demo_files) as (H1 & _ & H3).
  split; [rewrite H1; by vm_compute|by apply H3].
Defined.



Lemma generated_ids_are_canonical_witness :
  generate_session_id demo_now demo_uuid = demo_sid
  ∧ canonical (generate_session_id demo_now demo_uuid).
Proof.
  split; [by vm_compute|].
  apply (generated_ids_are_canonical E_ok demo_now demo_uuid);
    vm_compute; lia.
Defined.
